(** * Puff Archive backend: a shallow embedding of [server.py]

    The FastAPI application is modelled as pure functions over an explicit
    state: the MongoDB collection [cheats_collection] and the upload
    directory.  Whatever a handler takes from its surroundings (the random
    bytes behind [uuid.uuid4()], the clock behind [datetime.now()], the
    ObjectId the driver assigns on insert) is an explicit input. *)

From Stdlib Require Import ZArith NArith Ascii String.
From stdpp Require Import gmap strings list fin_maps.

Open Scope string_scope.
Open Scope list_scope.

(** ** Outcomes of a handler *)

Inductive exception : Type :=
  | KeyError (key : string)
  | ValidationError
  | ValueError
  | OSError.

(** A handler returns a value, raises [HTTPException(status_code, detail)],
    or lets another exception escape (an internal server error). *)
Inductive outcome (A : Type) : Type :=
  | Return (a : A)
  | HTTPException (status_code : Z) (detail : string)
  | Raise (e : exception).
Arguments Return {A} a.
Arguments HTTPException {A} status_code detail.
Arguments Raise {A} e.

#[global] Instance outcome_ret : MRet outcome := λ A a, Return a.

#[global] Instance outcome_bind : MBind outcome := λ A B k o,
  match o with
  | Return a => k a
  | HTTPException c d => HTTPException c d
  | Raise e => Raise e
  end.

(** ** Security *)

Definition ADMIN_CODE : string := "201016".

Record HTTPAuthorizationCredentials : Type := {
  scheme : string;
  credentials : string
}.

Record AuthResponse : Type := {
  success : bool;
  token : string
}.

Definition verify_admin_code (code : string) : bool :=
  String.eqb code ADMIN_CODE.

Definition get_current_user (c : HTTPAuthorizationCredentials) : outcome bool :=
  if negb (String.eqb (credentials c) ADMIN_CODE)
  then HTTPException 401 "Invalid authentication code"
  else Return true.

Definition authenticate (code : string) : outcome AuthResponse :=
  if verify_admin_code code
  then Return {| success := true; token := ADMIN_CODE |}
  else HTTPException 401 "Invalid authentication code".

(** ** Python string operations used by the handlers

    A string is the sequence of the bytes of its UTF-8 encoding; the
    separators the handlers split on are single bytes. *)

(** [s.split(sep)] for a one-character separator: never the empty list. *)
Fixpoint split (sep : ascii) (s : string) : list string :=
  match s with
  | EmptyString => [""]
  | String c s' =>
      if Ascii.eqb c sep then "" :: split sep s'
      else match split sep s' with
           | w :: ws => String c w :: ws
           | [] => [String c ""]
           end
  end.

(** [s.startswith(p)] *)
Definition startswith (s p : string) : bool := String.prefix p s.

(** [c in s] for a character [c]. *)
Fixpoint contains (c : ascii) (s : string) : bool :=
  match s with
  | EmptyString => false
  | String c' s' => Ascii.eqb c' c || contains c s'
  end.

(** ** [uuid.uuid4()] and [str(UUID)] *)

(** [UUID(bytes=os.urandom(16), version=4)]: the 128 random bits with the
    RFC 4122 variant and the version number forced. *)
Definition uuid4 (urandom : N) : N :=
  let int := (urandom mod 2 ^ 128)%N in
  let int := N.ldiff int (N.shiftl 0xc000 48) in
  let int := N.lor int (N.shiftl 0x8000 48) in
  let int := N.ldiff int (N.shiftl 0xf000 64) in
  N.lor int (N.shiftl 4 76).

Definition hexdigits : list ascii := list_ascii_of_string "0123456789abcdef".

Definition hex_digit (d : N) : ascii := default "0"%char (hexdigits !! N.to_nat d).

(** ['%032x' % int], as a list of characters, most significant digit first. *)
Definition hex32 (int : N) : list ascii :=
  (λ i : nat, hex_digit (N.land (N.shiftr int (4 * N.of_nat i)) 15)) <$> reverse (seq 0 32).

(** [str(u)]: the slices [hex[:8]], [hex[8:12]], [hex[12:16]], [hex[16:20]],
    [hex[20:]] joined by dashes. *)
Definition uuid_str (u : N) : string :=
  let hex := hex32 u in
  string_of_list_ascii
    (take 8 hex ++ "-"%char :: take 4 (drop 8 hex) ++ "-"%char :: take 4 (drop 12 hex)
     ++ "-"%char :: take 4 (drop 16 hex) ++ "-"%char :: drop 20 hex).

(** ** Models *)

Module CheatCreate.
Record t : Type := {
  name : string;
  description : string;
  link : string;
  youtube_url : option string;
  thumbnail_url : option string
}.
End CheatCreate.

Module CheatResponse.
Record t : Type := {
  id : string;
  name : string;
  description : string;
  link : string;
  youtube_url : option string;
  thumbnail_url : option string;
  created_at : string
}.
End CheatResponse.

Record UploadFile : Type := {
  filename : string;
  content_type : string;
  file : list Byte.byte
}.

(** ** The document store *)

(** What a field of a stored document holds: a string, [None], or an
    ObjectId such as the one under the driver's own [_id] key.  These are
    the values the API itself stores; numbers, bytes and nested values,
    which only another writer could put there, are not modelled. *)
Inductive value : Type :=
  | VStr (s : string)
  | VNull
  | VObjectId (oid : N).

#[global] Instance value_eq_dec : EqDecision value.
Proof. solve_decision. Defined.

Abbreviation document := (gmap string value).

(** A value given to a [str] field of a pydantic model. *)
Definition as_str (v : value) : outcome string :=
  match v with
  | VStr s => Return s
  | _ => Raise ValidationError
  end.

(** A value given to an [Optional[str] = None] field. *)
Definition as_optional_str (v : value) : outcome (option string) :=
  match v with
  | VStr s => Return (Some s)
  | VNull => Return None
  | VObjectId _ => Raise ValidationError
  end.

Definition of_optional (o : option string) : value :=
  match o with
  | Some s => VStr s
  | None => VNull
  end.

(** [CheatResponse(id=..., name=..., ...)] *)
Definition CheatResponse_init
    (id name description link youtube_url thumbnail_url created_at : value)
    : outcome CheatResponse.t :=
  id ← as_str id;
  name ← as_str name;
  description ← as_str description;
  link ← as_str link;
  youtube_url ← as_optional_str youtube_url;
  thumbnail_url ← as_optional_str thumbnail_url;
  created_at ← as_str created_at;
  mret {| CheatResponse.id := id;
          CheatResponse.name := name;
          CheatResponse.description := description;
          CheatResponse.link := link;
          CheatResponse.youtube_url := youtube_url;
          CheatResponse.thumbnail_url := thumbnail_url;
          CheatResponse.created_at := created_at |}.

(** A keyword argument taken from the unpacked dictionary: a required field that is missing
    fails validation, a missing optional one takes its default [None], and
    keys that are no field of the model are ignored. *)
Definition required (d : document) (k : string) : outcome value :=
  match d !! k with
  | Some v => Return v
  | None => Raise ValidationError
  end.

(** [d.get(k)] *)
Definition get (d : document) (k : string) : value := default VNull (d !! k).

(** [d[k]] *)
Definition getitem (d : document) (k : string) : outcome value :=
  match d !! k with
  | Some v => Return v
  | None => Raise (KeyError k)
  end.

(** The model built from a dictionary unpacked into keyword arguments,
    as in the call of [CheatResponse] that ends [create_cheat]. *)
Definition CheatResponse_of_kwargs (d : document) : outcome CheatResponse.t :=
  id ← required d "id";
  name ← required d "name";
  description ← required d "description";
  link ← required d "link";
  created_at ← required d "created_at";
  CheatResponse_init id name description link
    (get d "youtube_url") (get d "thumbnail_url") created_at.

(** The collection [db.cheats]: its documents in natural order, and the
    counter from which the driver takes the next ObjectId. *)
Record Collection : Type := {
  documents : list document;
  next_object_id : N
}.

(** [collection.insert_one(doc)]: the driver adds its [_id] key to the
    dictionary it is given when the key is absent, and the caller sees it. *)
Definition insert_one (doc : document) (c : Collection) : document * Collection :=
  let doc' :=
    match doc !! "_id" with
    | Some _ => doc
    | None => <["_id" := VObjectId (next_object_id c)]> doc
    end in
  (doc', {| documents := documents c ++ [doc'];
            next_object_id := N.succ (next_object_id c) |}).

(** [list(collection.find())] *)
Definition find (c : Collection) : list document := documents c.

(** Does a document match the filter [{"id": cheat_id}]? *)
Definition matches_id (cheat_id : string) (d : document) : bool :=
  bool_decide (d !! "id" = Some (VStr cheat_id)).

(** Removal of the first document that matches, with the number removed. *)
Fixpoint remove_first (cheat_id : string) (l : list document) : N * list document :=
  match l with
  | [] => (0%N, [])
  | d :: l' =>
      if matches_id cheat_id d then (1%N, l')
      else let '(n, r) := remove_first cheat_id l' in (n, d :: r)
  end.

(** [collection.delete_one({"id": cheat_id})], with [result.deleted_count]. *)
Definition delete_one (cheat_id : string) (c : Collection) : N * Collection :=
  let '(n, l) := remove_first cheat_id (documents c) in
  (n, {| documents := l; next_object_id := next_object_id c |}).

(** ** The upload directory *)

(** The files of [/app/backend/uploads], a flat directory: name to content. *)
Abbreviation directory := (gmap string (list Byte.byte)).

(** The components of a relative path joined to [upload_dir]: pathlib drops
    empty components and single dots. *)
Definition path_parts (name : string) : list string :=
  filter (λ p, p ≠ "" ∧ p ≠ ".") (split "/" name).

(** The longest file name, in bytes, the file system of the upload
    directory takes. *)
Definition NAME_MAX : nat := 255.

(** [open(upload_dir / name, "wb")] followed by [shutil.copyfileobj]: a
    path with a NUL character is refused; the file is created or truncated
    when the path names an entry of the directory itself; a path through a
    subdirectory finds none, the path of a directory cannot be opened for
    writing, and a name longer than [NAME_MAX] bytes is refused by the file
    system.  The directory is taken to exist, to be writable and to have
    room. *)
Definition write_file (name : string) (data : list Byte.byte) (dir : directory)
    : outcome unit * directory :=
  if contains "000"%char name then (Raise ValueError, dir)
  else
    match path_parts name with
    | [leaf] =>
        if bool_decide (leaf = "..") then (Raise OSError, dir)
        else if Nat.ltb NAME_MAX (String.length leaf) then (Raise OSError, dir)
        else (Return (), <[leaf := data]> dir)
    | _ => (Raise OSError, dir)
    end.

(** ** Application state and the request environment *)

Record State : Type := {
  cheats_collection : Collection;
  upload_dir : directory
}.

(** What one request reads from outside the program: the sixteen bytes of
    [os.urandom] behind [uuid.uuid4()], and [datetime.now().isoformat()]. *)
Record Env : Type := {
  urandom : N;
  now_isoformat : string
}.

Definition handler (A : Type) : Type := State → outcome A * State.

(** ** Routes *)

Definition health_check : handler string :=
  λ st, (Return "healthy", st).

Definition authenticate_route (code : string) : handler AuthResponse :=
  λ st, (authenticate code, st).

(** The element of the list comprehension in [get_cheats]. *)
Definition cheat_response (cheat : document) : outcome CheatResponse.t :=
  id ← getitem cheat "id";
  name ← getitem cheat "name";
  description ← getitem cheat "description";
  link ← getitem cheat "link";
  created_at ← getitem cheat "created_at";
  CheatResponse_init id name description link
    (get cheat "youtube_url") (get cheat "thumbnail_url") created_at.

Definition get_cheats : handler (list CheatResponse.t) :=
  λ st,
    let cheats := find (cheats_collection st) in
    (mapM cheat_response cheats, st).

(** The dictionary [cheat_data] as [create_cheat] builds it. *)
Definition cheat_data (cheat_id : string) (cheat : CheatCreate.t) (created_at : string)
    : document :=
  <["id" := VStr cheat_id]>
  (<["name" := VStr (CheatCreate.name cheat)]>
  (<["description" := VStr (CheatCreate.description cheat)]>
  (<["link" := VStr (CheatCreate.link cheat)]>
  (<["youtube_url" := of_optional (CheatCreate.youtube_url cheat)]>
  (<["thumbnail_url" := of_optional (CheatCreate.thumbnail_url cheat)]>
  (<["created_at" := VStr created_at]> ∅)))))).

Definition create_cheat (env : Env) (cheat : CheatCreate.t)
    (c : HTTPAuthorizationCredentials) : handler CheatResponse.t :=
  λ st,
    match get_current_user c with
    | Return _ =>
        let cheat_id := uuid_str (uuid4 (urandom env)) in
        let '(stored, coll) :=
          insert_one (cheat_data cheat_id cheat (now_isoformat env)) (cheats_collection st) in
        (CheatResponse_of_kwargs stored,
         {| cheats_collection := coll; upload_dir := upload_dir st |})
    | HTTPException code detail => (HTTPException code detail, st)
    | Raise e => (Raise e, st)
    end.

Definition delete_cheat (cheat_id : string) (c : HTTPAuthorizationCredentials)
    : handler string :=
  λ st,
    match get_current_user c with
    | Return _ =>
        let '(deleted_count, coll) := delete_one cheat_id (cheats_collection st) in
        let st' := {| cheats_collection := coll; upload_dir := upload_dir st |} in
        if (deleted_count =? 0)%N
        then (HTTPException 404 "Cheat not found", st')
        else (Return "Cheat deleted successfully", st')
    | HTTPException code detail => (HTTPException code detail, st)
    | Raise e => (Raise e, st)
    end.

Definition upload_thumbnail (env : Env) (f : UploadFile)
    (c : HTTPAuthorizationCredentials) : handler string :=
  λ st,
    match get_current_user c with
    | Return _ =>
        if negb (startswith (content_type f) "image/")
        then (HTTPException 400 "File must be an image", st)
        else
          let file_extension := default "" (last (split "." (filename f))) in
          let unique_filename := uuid_str (uuid4 (urandom env)) +:+ "." +:+ file_extension in
          match write_file unique_filename (file f) (upload_dir st) with
          | (Return _, dir) =>
              (Return ("/api/uploads/" +:+ unique_filename),
               {| cheats_collection := cheats_collection st; upload_dir := dir |})
          | (HTTPException code detail, dir) =>
              (HTTPException code detail,
               {| cheats_collection := cheats_collection st; upload_dir := dir |})
          | (Raise e, dir) =>
              (Raise e, {| cheats_collection := cheats_collection st; upload_dir := dir |})
          end
    | HTTPException code detail => (HTTPException code detail, st)
    | Raise e => (Raise e, st)
    end.

(** ** The HTTP surface *)

Inductive Request : Type :=
  | GET_health
  | POST_auth (code : string)
  | GET_cheats
  | POST_cheats (c : HTTPAuthorizationCredentials) (cheat : CheatCreate.t)
  | DELETE_cheats (c : HTTPAuthorizationCredentials) (cheat_id : string)
  | POST_upload (c : HTTPAuthorizationCredentials) (f : UploadFile).

Inductive Body : Type :=
  | Status (status : string)
  | Auth (r : AuthResponse)
  | Cheats (l : list CheatResponse.t)
  | Cheat (r : CheatResponse.t)
  | Message (message : string)
  | ThumbnailUrl (thumbnail_url : string).

#[global] Instance outcome_fmap : FMap outcome := λ A B f o,
  match o with
  | Return a => Return (f a)
  | HTTPException c d => HTTPException c d
  | Raise e => Raise e
  end.

Definition respond {A : Type} (wrap : A → Body) (r : outcome A * State)
    : outcome Body * State :=
  (wrap <$> r.1, r.2).

Definition handle (env : Env) (req : Request) : handler Body :=
  λ st,
    match req with
    | GET_health => respond Status (health_check st)
    | POST_auth code => respond Auth (authenticate_route code st)
    | GET_cheats => respond Cheats (get_cheats st)
    | POST_cheats c cheat => respond Cheat (create_cheat env cheat c st)
    | DELETE_cheats c cheat_id => respond Message (delete_cheat cheat_id c st)
    | POST_upload c f => respond ThumbnailUrl (upload_thumbnail env f c st)
    end.

(** The handlers are coroutines that never await: each runs to its end
    before the event loop starts the next, so the server's behaviour on
    concurrent requests is its behaviour on one of their orderings. *)
Fixpoint run (reqs : list (Env * Request)) (st : State) : State :=
  match reqs with
  | [] => st
  | (env, req) :: reqs' => run reqs' (handle env req st).2
  end.

Definition empty_state : State :=
  {| cheats_collection := {| documents := []; next_object_id := 0 |};
     upload_dir := ∅ |}.

(** The bearer credential a request must carry, for the routes that
    depend on [get_current_user]. *)
Definition request_credentials (req : Request) : option HTTPAuthorizationCredentials :=
  match req with
  | POST_cheats c _ | DELETE_cheats c _ | POST_upload c _ => Some c
  | GET_health | POST_auth _ | GET_cheats => None
  end.

(** The record [create_cheat] answers with. *)
Definition created_response (env : Env) (cheat : CheatCreate.t) : CheatResponse.t :=
  {| CheatResponse.id := uuid_str (uuid4 (urandom env));
     CheatResponse.name := CheatCreate.name cheat;
     CheatResponse.description := CheatCreate.description cheat;
     CheatResponse.link := CheatCreate.link cheat;
     CheatResponse.youtube_url := CheatCreate.youtube_url cheat;
     CheatResponse.thumbnail_url := CheatCreate.thumbnail_url cheat;
     CheatResponse.created_at := now_isoformat env |}.

(** The document [create_cheat] leaves in the collection. *)
Definition created_document (env : Env) (cheat : CheatCreate.t) (oid : N) : document :=
  <["_id" := VObjectId oid]>
    (cheat_data (uuid_str (uuid4 (urandom env))) cheat (now_isoformat env)).

(** A document whose [id] field is the given string. *)
Definition has_id (cheat_id : string) (d : document) : Prop :=
  d !! "id" = Some (VStr cheat_id).

#[global] Instance has_id_dec cheat_id d : Decision (has_id cheat_id d).
Proof. unfold has_id. apply _. Defined.

(** The [id] fields of the stored documents, in order. *)
Definition record_ids (l : list document) : list value :=
  omap (λ d : document, d !! "id") l.

(** A document as [create_cheat] stores it. *)
Definition created (d : document) : Prop :=
  ∃ env cheat oid, d = created_document env cheat oid.

(** The bits of a draw that [uuid4] overwrites, and what it puts there. *)
Definition uuid4_mask : N := N.lor (N.shiftl 0xc000 48) (N.shiftl 0xf000 64).

Definition uuid4_flags : N := N.lor (N.shiftl 0x8000 48) (N.shiftl 4 76).

(** The 122 bits of a sixteen-byte draw that [uuid4] keeps. *)
Definition random_bits (urandom : N) : N := N.ldiff (urandom mod 2 ^ 128) uuid4_mask.

(** The hexadecimal digit of weight [16 ^ i]. *)
Definition nibble (u : N) (i : nat) : N := N.land (N.shiftr u (4 * N.of_nat i)) 15.

(** The id a create stores when it draws [urandom]. *)
Definition generated_id (urandom : N) : value := VStr (uuid_str (uuid4 urandom)).

(** The draws of the authorized creates of a run, in order. *)
Fixpoint create_draws (reqs : list (Env * Request)) : list N :=
  match reqs with
  | [] => []
  | (env, POST_cheats c _) :: reqs' =>
      if bool_decide (credentials c = ADMIN_CODE)
      then urandom env :: create_draws reqs'
      else create_draws reqs'
  | _ :: reqs' => create_draws reqs'
  end.

(** A media type of the image family: [image/] followed by a subtype. *)
Definition is_image_type (media_type : string) : Prop :=
  ∃ subtype, media_type = "image/" +:+ subtype.

(** ** Sample requests *)

Definition admin : HTTPAuthorizationCredentials :=
  {| scheme := "Bearer"; credentials := "201016" |}.

Definition intruder : HTTPAuthorizationCredentials :=
  {| scheme := "Bearer"; credentials := "000000" |}.

Definition morning : Env :=
  {| urandom := 0x0123456789abcdef0123456789abcdef;
     now_isoformat := "2024-05-01T09:30:00.000000" |}.

Definition evening : Env :=
  {| urandom := 0xfedcba9876543210fedcba9876543210;
     now_isoformat := "2024-05-01T21:15:00.000000" |}.

Definition noon : Env :=
  {| urandom := 0x00112233445566778899aabbccddeeff;
     now_isoformat := "2024-05-01T12:00:00.000000" |}.

Definition aimbot : CheatCreate.t :=
  {| CheatCreate.name := "Aimbot";
     CheatCreate.description := "Locks on";
     CheatCreate.link := "https://example.org/aimbot";
     CheatCreate.youtube_url := None;
     CheatCreate.thumbnail_url := Some "/api/uploads/a.png" |}.

Definition wallhack : CheatCreate.t :=
  {| CheatCreate.name := "Wallhack";
     CheatCreate.description := "Sees through";
     CheatCreate.link := "https://example.org/wallhack";
     CheatCreate.youtube_url := Some "https://youtu.be/x";
     CheatCreate.thumbnail_url := None |}.

Definition png_bytes : list Byte.byte := [Byte.x89; Byte.x50; Byte.x4e; Byte.x47].


Definition notes_txt : UploadFile :=
  {| filename := "notes.txt"; content_type := "text/plain"; file := png_bytes |}.


(** An image whose name has a path separator after its last dot. *)
Definition nested : UploadFile :=
  {| filename := "shot.png/raw"; content_type := "image/png"; file := png_bytes |}.



Definition two_creates : list (Env * Request) :=
  [(morning, POST_cheats admin aimbot); (evening, POST_cheats admin wallhack)].

(** ** Notions for the further properties *)

(** The keys [get_cheats] subscripts, in the order it evaluates them. *)
Definition subscripted_keys : list string :=
  ["id"; "name"; "description"; "link"; "created_at"].

(** The first subscripted key a document lacks. *)
Definition first_missing (d : document) : option string :=
  head (filter (λ k, d !! k = None) subscripted_keys).

(** A request that presents no credential or a wrong one. *)
Definition without_secret (er : Env * Request) : Prop :=
  ∀ c, request_credentials er.2 = Some c → credentials c ≠ ADMIN_CODE.

(** A document that lacks every subscripted key but [name]. *)
Definition orphan : document := <["name" := VStr "Speedhack"]> ∅.

(** A document written by another program: no [youtube_url], no [_id],
    and a key the model [CheatResponse] does not have. *)
Definition sparse : document :=
  <["id" := VStr "7"]>
  (<["name" := VStr "Speedhack"]>
  (<["description" := VStr "Runs fast"]>
  (<["link" := VStr "https://example.org/speedhack"]>
  (<["thumbnail_url" := VStr "/api/uploads/s.png"]>
  (<["created_at" := VStr "2023-11-30T08:00:00"]>
  (<["legacy_flag" := VNull]> ∅)))))).

(** A created document whose [name] was set to null behind the API. *)
Definition nameless : document := <["name" := VNull]> (created_document morning aimbot 0).

(** A store holding a created document followed by [orphan]. *)
Definition legacy_store : State :=
  {| cheats_collection :=
       {| documents := [created_document morning aimbot 0; orphan];
          next_object_id := 2 |};
     upload_dir := ∅ |}.

(** Three requests, none of which presents the shared secret. *)
Definition outsider_requests : list (Env * Request) :=
  [(morning, POST_cheats intruder aimbot);
   (evening, GET_cheats);
   (evening, DELETE_cheats intruder "01234567-89ab-4def-8123-456789abcdef")].

(** * Properties *)

(** ** The auth gate *)

Lemma get_current_user_accepts c :
  credentials c = ADMIN_CODE → get_current_user c = Return true.
Proof.
  intros Hc. unfold get_current_user. rewrite Hc. reflexivity.
Qed.

Lemma get_current_user_rejects c :
  credentials c ≠ ADMIN_CODE →
  get_current_user c = HTTPException 401 "Invalid authentication code".
Proof.
  intros Hc. unfold get_current_user.
  destruct (String.eqb_spec (credentials c) ADMIN_CODE) as [Heq | _]; [contradiction | reflexivity].
Qed.

Lemma authenticate_accepts :
  authenticate ADMIN_CODE = Return {| success := true; token := ADMIN_CODE |}.
Proof. reflexivity. Qed.

Lemma authenticate_rejects code :
  code ≠ ADMIN_CODE →
  authenticate code = HTTPException 401 "Invalid authentication code".
Proof.
  intros Hc. unfold authenticate, verify_admin_code.
  destruct (String.eqb_spec code ADMIN_CODE) as [Heq | _]; [contradiction | reflexivity].
Qed.

(** C1: POST /api/auth succeeds, returning the token, exactly when the
    presented code is the shared secret; any other code is rejected with
    401, and the state is untouched either way. *)
Theorem auth_gate_iff (env : Env) (st : State) (code : string) :
  ((∃ r, (handle env (POST_auth code) st).1 = Return (Auth r)) ↔ code = ADMIN_CODE)
  ∧ (code = ADMIN_CODE →
     (handle env (POST_auth code) st).1
     = Return (Auth {| success := true; token := ADMIN_CODE |}))
  ∧ (code ≠ ADMIN_CODE →
     (handle env (POST_auth code) st).1
     = HTTPException 401 "Invalid authentication code")
  ∧ (handle env (POST_auth code) st).2 = st.
Proof.
  cbn [handle respond authenticate_route fst snd].
  destruct (decide (code = ADMIN_CODE)) as [-> | Hne].
  - rewrite authenticate_accepts. repeat split; eauto. intros Hne. by destruct Hne.
  - rewrite (authenticate_rejects _ Hne). repeat split; try done.
    intros [r Hr]. discriminate Hr.
Qed.

(** ** Create *)

Lemma cheat_data_no_object_id cheat_id cheat created_at :
  cheat_data cheat_id cheat created_at !! "_id" = None.
Proof. reflexivity. Qed.

Lemma created_document_kwargs env cheat oid :
  CheatResponse_of_kwargs (created_document env cheat oid)
  = Return (created_response env cheat).
Proof.
  destruct cheat as [n d l [y|] [t|]]; reflexivity.
Qed.

Lemma create_cheat_authorized env cheat c st :
  credentials c = ADMIN_CODE →
  create_cheat env cheat c st
  = (Return (created_response env cheat),
     {| cheats_collection :=
          {| documents :=
               documents (cheats_collection st)
               ++ [created_document env cheat (next_object_id (cheats_collection st))];
             next_object_id := N.succ (next_object_id (cheats_collection st)) |};
        upload_dir := upload_dir st |}).
Proof.
  intros Hc. unfold create_cheat, insert_one.
  rewrite (get_current_user_accepts _ Hc), cheat_data_no_object_id.
  fold (created_document env cheat (next_object_id (cheats_collection st))).
  by rewrite created_document_kwargs.
Qed.

(** ** Delete *)

Lemma matches_id_true cheat_id d : matches_id cheat_id d = true ↔ has_id cheat_id d.
Proof. unfold matches_id, has_id. apply bool_decide_eq_true. Qed.

Lemma remove_first_absent cheat_id l :
  Forall (λ d, ¬ has_id cheat_id d) l → remove_first cheat_id l = (0%N, l).
Proof.
  induction 1 as [| d l Hd _ IH]; [done |]. simpl.
  destruct (matches_id cheat_id d) eqn:Hm.
  - apply matches_id_true in Hm. contradiction.
  - by rewrite IH.
Qed.

Lemma remove_first_present cheat_id l :
  Exists (has_id cheat_id) l →
  ∃ l1 d l2,
    l = l1 ++ d :: l2 ∧ Forall (λ d, ¬ has_id cheat_id d) l1 ∧ has_id cheat_id d
    ∧ remove_first cheat_id l = (1%N, l1 ++ l2).
Proof.
  induction l as [| d l IH]; intros Hex; [by apply Exists_nil in Hex |].
  simpl. destruct (matches_id cheat_id d) eqn:Hm.
  - apply matches_id_true in Hm. by exists [], d, l.
  - apply Exists_cons in Hex as [Hd | Hl].
    + apply matches_id_true in Hd. congruence.
    + destruct (IH Hl) as (l1 & d' & l2 & -> & Hl1 & Hd' & ->).
      exists (d :: l1), d', l2. repeat split; [| done].
      constructor; [| done]. intros Hd. apply matches_id_true in Hd. congruence.
Qed.

Lemma absent_or_present cheat_id (l : list document) :
  Forall (λ d, ¬ has_id cheat_id d) l ∨ Exists (has_id cheat_id) l.
Proof.
  destruct (decide (Exists (has_id cheat_id) l)) as [He | Hn]; [by right | left].
  apply not_Exists_Forall in Hn; [| apply _]. exact Hn.
Qed.

Lemma record_ids_app l1 l2 : record_ids (l1 ++ l2) = record_ids l1 ++ record_ids l2.
Proof. apply omap_app. Qed.

Lemma has_id_record_ids cheat_id d l :
  d ∈ l → has_id cheat_id d → VStr cheat_id ∈ record_ids l.
Proof. intros Hd Hid. apply list_elem_of_omap. by exists d. Qed.

Lemma record_ids_has_id cheat_id l :
  VStr cheat_id ∈ record_ids l → Exists (has_id cheat_id) l.
Proof.
  intros (d & Hd & Hid)%list_elem_of_omap. apply Exists_exists. by exists d.
Qed.

Lemma delete_cheat_absent cheat_id c st :
  credentials c = ADMIN_CODE →
  Forall (λ d, ¬ has_id cheat_id d) (documents (cheats_collection st)) →
  delete_cheat cheat_id c st = (HTTPException 404 "Cheat not found", st).
Proof.
  intros Hc Habs. unfold delete_cheat, delete_one.
  rewrite (get_current_user_accepts _ Hc), (remove_first_absent _ _ Habs).
  by destruct st as [[docs n] dir].
Qed.

Lemma delete_cheat_present cheat_id c st :
  credentials c = ADMIN_CODE →
  Exists (has_id cheat_id) (documents (cheats_collection st)) →
  ∃ l1 d l2,
    documents (cheats_collection st) = l1 ++ d :: l2
    ∧ Forall (λ d, ¬ has_id cheat_id d) l1 ∧ has_id cheat_id d
    ∧ delete_cheat cheat_id c st
      = (Return "Cheat deleted successfully",
         {| cheats_collection :=
              {| documents := l1 ++ l2;
                 next_object_id := next_object_id (cheats_collection st) |};
            upload_dir := upload_dir st |}).
Proof.
  intros Hc Hex. destruct (remove_first_present _ _ Hex) as (l1 & d & l2 & Hl & Hl1 & Hd & Hrm).
  exists l1, d, l2. repeat split; try done.
  unfold delete_cheat, delete_one. by rewrite (get_current_user_accepts _ Hc), Hrm.
Qed.

(** ** List *)

Lemma mapM_outcome_app {A B : Type} (f : A → outcome B) l1 l2 k1 k2 :
  mapM f l1 = Return k1 → mapM f l2 = Return k2 →
  mapM f (l1 ++ l2) = Return (k1 ++ k2).
Proof.
  revert k1. induction l1 as [| a l1 IH]; intros k1 H1 H2; simpl in *.
  - by injection H1 as <-.
  - destruct (f a) as [b | |]; simpl in *; try discriminate.
    destruct (mapM f l1) as [k | |]; simpl in *; try discriminate.
    injection H1 as <-. by rewrite (IH k eq_refl H2).
Qed.

Lemma created_document_response env cheat oid :
  cheat_response (created_document env cheat oid) = Return (created_response env cheat).
Proof.
  destruct cheat as [n d l [y|] [t|]]; reflexivity.
Qed.

Lemma created_documents_list l :
  Forall created l → ∃ k, mapM cheat_response l = Return k.
Proof.
  induction 1 as [| d l (env & cheat & oid & ->) _ [k IH]]; [by exists [] |].
  exists (created_response env cheat :: k). simpl.
  rewrite created_document_response. simpl. by rewrite IH.
Qed.

(** ** How a request changes the collection *)

Lemma handle_documents env req st :
  let docs := documents (cheats_collection st) in
  let docs' := documents (cheats_collection (handle env req st).2) in
  docs' = docs
  ∨ (∃ c cheat, req = POST_cheats c cheat ∧ credentials c = ADMIN_CODE
       ∧ docs' = docs ++ [created_document env cheat (next_object_id (cheats_collection st))])
  ∨ (∃ c cheat_id l1 d l2, req = DELETE_cheats c cheat_id ∧ credentials c = ADMIN_CODE
       ∧ docs = l1 ++ d :: l2 ∧ Forall (λ d, ¬ has_id cheat_id d) l1
       ∧ has_id cheat_id d ∧ docs' = l1 ++ l2).
Proof.
  destruct req as [| code | | c cheat | c cheat_id | c f]; cbn [handle respond snd];
    try (by left).
  - destruct (decide (credentials c = ADMIN_CODE)) as [Hc | Hc].
    + right; left. exists c, cheat. by rewrite (create_cheat_authorized _ _ _ _ Hc).
    + left. unfold create_cheat. by rewrite (get_current_user_rejects _ Hc).
  - destruct (decide (credentials c = ADMIN_CODE)) as [Hc | Hc].
    + destruct (absent_or_present cheat_id (documents (cheats_collection st))) as [Ha | He].
      * left. by rewrite (delete_cheat_absent _ _ _ Hc Ha).
      * right; right.
        destruct (delete_cheat_present _ _ _ Hc He) as (l1 & d & l2 & Hl & Hl1 & Hd & ->).
        by exists c, cheat_id, l1, d, l2.
    + left. unfold delete_cheat. by rewrite (get_current_user_rejects _ Hc).
  - left. unfold upload_thumbnail.
    destruct (get_current_user c); [| done | done].
    destruct (negb _); [done |].
    by destruct (write_file _ _ _) as [[| |] dir].
Qed.

(** ** String lemmas *)

Lemma append_cons a s r : String a s +:+ r = String a (s +:+ r).
Proof. reflexivity. Qed.

Lemma append_nil r : "" +:+ r = r.
Proof. reflexivity. Qed.

Lemma startswith_spec s p : startswith s p = true ↔ ∃ r, s = p +:+ r.
Proof.
  unfold startswith. revert s. induction p as [| a p IH]; intros [| b s]; simpl.
  - split; [by exists "" | done].
  - split; [by exists (String b s) | done].
  - split; [done | by intros [r Hr]].
  - destruct (ascii_dec a b) as [-> | Hne].
    + rewrite IH. split; intros [r Hr]; exists r; rewrite append_cons in *; congruence.
    + split; [done | intros [r Hr]; rewrite append_cons in Hr; congruence].
Qed.

Lemma split_nonempty sep s : split sep s ≠ [].
Proof.
  destruct s as [| c s]; simpl; [done |].
  destruct (Ascii.eqb c sep); [done |]. by destruct (split sep s).
Qed.




Lemma contains_append c a b : contains c (a +:+ b) = contains c a || contains c b.
Proof.
  induction a as [| x a IH]; [done |].
  rewrite append_cons. simpl. by rewrite IH, orb_assoc.
Qed.

Lemma contains_of_list c (l : list ascii) :
  c ∉ l → contains c (string_of_list_ascii l) = false.
Proof.
  induction l as [| x l IH]; simpl; [done |].
  intros [Hx Hl]%not_elem_of_cons. rewrite (IH Hl), orb_false_r.
  apply Ascii.eqb_neq. congruence.
Qed.

(** ** The text of a UUID *)

Lemma hex_digit_hexdigits x : hex_digit (N.land x 15) ∈ hexdigits.
Proof.
  assert (N.to_nat (N.land x 15) < 16)%nat as Hlt.
  { change 15%N with (N.ones 4). rewrite N.land_ones.
    pose proof (N.mod_upper_bound x (2 ^ 4)). lia. }
  unfold hex_digit. revert Hlt. generalize (N.to_nat (N.land x 15)). intros n Hn.
  do 16 (destruct n as [| n]; [cbn; set_solver |]). lia.
Qed.

Lemma hex32_hexdigits u : Forall (λ c, c ∈ hexdigits) (hex32 u).
Proof.
  unfold hex32. apply Forall_fmap, Forall_forall. intros i _. apply hex_digit_hexdigits.
Qed.

Lemma uuid_str_chars u c :
  c ∉ hexdigits → c ≠ "-"%char → contains c (uuid_str u) = false.
Proof.
  intros Hhex Hdash. unfold uuid_str. apply contains_of_list.
  pose proof (hex32_hexdigits u) as Hall. revert Hall. generalize (hex32 u). intros hex Hall.
  assert (∀ l, Forall (λ c, c ∈ hexdigits) l → c ∉ l) as Hnot.
  { intros l Hl Hc. rewrite Forall_forall in Hl. by apply Hhex, Hl. }
  repeat first [ apply not_elem_of_app; split | apply not_elem_of_cons; split ];
    try done; apply Hnot; auto using Forall_take, Forall_drop.
Qed.

Lemma uuid_str_long u : ∃ a b c r, uuid_str u = String a (String b (String c r)).
Proof. by eexists _, _, _, _. Qed.

(** ** The claims about records *)

(** C3: an authorized delete of an id some record carries removes the first
    such record and nothing else, the others keeping their order (and when
    ids are unique no record with that id is left); a delete of an id no
    record carries answers 404 and changes nothing. *)
Theorem delete_removes_exactly_target (env : Env) (c : HTTPAuthorizationCredentials)
    (cheat_id : string) (st : State) :
  credentials c = ADMIN_CODE →
  (Exists (has_id cheat_id) (documents (cheats_collection st)) →
   ∃ l1 d l2,
     documents (cheats_collection st) = l1 ++ d :: l2
     ∧ has_id cheat_id d
     ∧ handle env (DELETE_cheats c cheat_id) st
       = (Return (Message "Cheat deleted successfully"),
          {| cheats_collection :=
               {| documents := l1 ++ l2;
                  next_object_id := next_object_id (cheats_collection st) |};
             upload_dir := upload_dir st |})
     ∧ (NoDup (record_ids (documents (cheats_collection st))) →
        Forall (λ d', ¬ has_id cheat_id d') (l1 ++ l2)))
  ∧ (Forall (λ d, ¬ has_id cheat_id d) (documents (cheats_collection st)) →
     handle env (DELETE_cheats c cheat_id) st
     = (HTTPException 404 "Cheat not found", st)).
Proof.
  intros Hc. split.
  - intros Hex.
    destruct (delete_cheat_present _ _ _ Hc Hex) as (l1 & d & l2 & Hl & Hl1 & Hd & Hdel).
    exists l1, d, l2. cbn [handle respond]. rewrite Hdel.
    repeat split; try done.
    rewrite Hl, record_ids_app. simpl. unfold has_id in Hd. rewrite Hd. simpl.
    intros Hnd. apply Forall_app. split; [done |].
    apply NoDup_app in Hnd as (_ & _ & Hnd). apply NoDup_cons in Hnd as [Hnotin _].
    apply Forall_forall. intros d' Hd' Hid. apply Hnotin.
    by apply (has_id_record_ids cheat_id d').
  - intros Habs. cbn [handle respond]. by rewrite (delete_cheat_absent _ _ _ Hc Habs).
Qed.

(** C4: a create, delete or upload whose bearer credential is not the
    shared secret answers 401 and leaves the collection and the upload
    directory as they were. *)
Theorem unauthorized_write_rejected (env : Env) (req : Request)
    (c : HTTPAuthorizationCredentials) (st : State) :
  request_credentials req = Some c →
  credentials c ≠ ADMIN_CODE →
  handle env req st = (HTTPException 401 "Invalid authentication code", st).
Proof.
  intros Hreq Hc.
  destruct req; simplify_eq/=;
    unfold create_cheat, delete_cheat, upload_thumbnail;
    by rewrite (get_current_user_rejects _ Hc).
Qed.

(** C5: an authorized upload whose declared media type is not of the
    image family answers 400; nothing is written and the state is as it
    was. *)
Theorem upload_non_image_rejected (env : Env) (f : UploadFile)
    (c : HTTPAuthorizationCredentials) (st : State) :
  credentials c = ADMIN_CODE →
  ¬ is_image_type (content_type f) →
  handle env (POST_upload c f) st = (HTTPException 400 "File must be an image", st).
Proof.
  intros Hc Himg. cbn [handle respond]. unfold upload_thumbnail.
  rewrite (get_current_user_accepts _ Hc).
  destruct (startswith (content_type f) "image/") eqn:Hs; [| reflexivity].
  apply startswith_spec in Hs. contradiction.
Qed.

Lemma write_file_outcome name data dir :
  (∃ leaf, write_file name data dir = (Return (), <[leaf := data]> dir))
  ∨ (∃ e, write_file name data dir = (Raise e, dir)).
Proof.
  unfold write_file. destruct (contains _ name); [right; by eexists |].
  destruct (path_parts name) as [| leaf [| ? ?]]; [right; by eexists | | right; by eexists].
  destruct (bool_decide (leaf = "..")); [right; by eexists |].
  destruct (Nat.ltb _ _); [right; by eexists | left; by exists leaf].
Qed.


(** C7: across any request, every stored document is still stored,
    unchanged, unless the request is an authorized delete that names its
    id; requests other than delete keep the old documents as a prefix, and
    a delete leaves a sublist of them. *)
Theorem records_never_mutated (env : Env) (req : Request) (st : State) :
  (∀ d, d ∈ documents (cheats_collection st) →
     d ∈ documents (cheats_collection (handle env req st).2)
     ∨ ∃ c cheat_id, req = DELETE_cheats c cheat_id
                     ∧ credentials c = ADMIN_CODE ∧ has_id cheat_id d)
  ∧ ((∀ c cheat_id, req ≠ DELETE_cheats c cheat_id) →
     documents (cheats_collection st)
     `prefix_of` documents (cheats_collection (handle env req st).2))
  ∧ documents (cheats_collection (handle env req st).2)
    `sublist_of` documents (cheats_collection st)
      ++ match req with
         | POST_cheats _ cheat =>
             [created_document env cheat (next_object_id (cheats_collection st))]
         | _ => []
         end.
Proof.
  destruct (handle_documents env req st)
    as [-> | [(c & cheat & -> & Hc & ->) | (c & cheat_id & l1 & d & l2 & -> & Hc & Hl & Hl1 & Hd & ->)]].
  - repeat split.
    + by left.
    + done.
    + apply sublist_inserts_r. done.
  - repeat split.
    + intros d Hd. left. apply elem_of_app. by left.
    + intros _. by apply prefix_app_r.
    + done.
  - rewrite Hl. repeat split.
    + intros d' [Hd' | [-> | Hd']%elem_of_cons]%elem_of_app.
      * left. apply elem_of_app. by left.
      * right. by exists c, cheat_id.
      * left. apply elem_of_app. by right.
    + intros Hnot. by destruct (Hnot c cheat_id).
    + rewrite app_nil_r. apply sublist_app; [done |]. by apply sublist_cons.
Qed.

(** ** Invariants of a run *)

Lemma handle_created env req st :
  Forall created (documents (cheats_collection st)) →
  Forall created (documents (cheats_collection (handle env req st).2)).
Proof.
  intros Hall.
  destruct (handle_documents env req st)
    as [-> | [(c & cheat & _ & _ & ->) | (c & cheat_id & l1 & d & l2 & _ & _ & Hl & _ & _ & ->)]].
  - done.
  - apply Forall_app. split; [done |]. apply Forall_singleton. by eexists _, _, _.
  - rewrite Hl in Hall. apply Forall_app in Hall as [H1 H2].
    apply Forall_cons in H2 as [_ H2]. apply Forall_app. by split.
Qed.

Lemma run_created reqs st :
  Forall created (documents (cheats_collection st)) →
  Forall created (documents (cheats_collection (run reqs st))).
Proof.
  revert st. induction reqs as [| [env req] reqs IH]; intros st Hall; [done |].
  simpl. by apply IH, handle_created.
Qed.

Lemma created_document_id env cheat oid :
  created_document env cheat oid !! "id" = Some (VStr (uuid_str (uuid4 (urandom env)))).
Proof. reflexivity. Qed.

(** C10: the document an authorized create appends carries all seven
    fields, an optional field that was not submitted being stored as an
    explicit null; and after any sequence of requests on the empty store,
    listing returns a list: no lookup of a key fails. *)
Theorem created_records_complete :
  (∀ env cheat c st, credentials c = ADMIN_CODE →
     ∃ d, documents (cheats_collection (handle env (POST_cheats c cheat) st).2)
          = documents (cheats_collection st) ++ [d]
        ∧ d !! "id" = Some (VStr (uuid_str (uuid4 (urandom env))))
        ∧ d !! "name" = Some (VStr (CheatCreate.name cheat))
        ∧ d !! "description" = Some (VStr (CheatCreate.description cheat))
        ∧ d !! "link" = Some (VStr (CheatCreate.link cheat))
        ∧ d !! "youtube_url" = Some (of_optional (CheatCreate.youtube_url cheat))
        ∧ d !! "thumbnail_url" = Some (of_optional (CheatCreate.thumbnail_url cheat))
        ∧ d !! "created_at" = Some (VStr (now_isoformat env))
        ∧ (CheatCreate.youtube_url cheat = None → d !! "youtube_url" = Some VNull)
        ∧ (CheatCreate.thumbnail_url cheat = None → d !! "thumbnail_url" = Some VNull))
  ∧ (∀ reqs env, ∃ l,
       handle env GET_cheats (run reqs empty_state)
       = (Return (Cheats l), run reqs empty_state)).
Proof.
  split.
  - intros env cheat c st Hc.
    exists (created_document env cheat (next_object_id (cheats_collection st))).
    cbn [handle respond snd]. rewrite (create_cheat_authorized _ _ _ _ Hc).
    split; [reflexivity |].
    destruct cheat as [n de li y t]. do 7 (split; [reflexivity |]).
    split; cbn; by intros ->.
  - intros reqs env.
    destruct (created_documents_list (documents (cheats_collection (run reqs empty_state))))
      as [k Hk].
    { apply run_created. constructor. }
    exists k. unfold handle, respond, get_cheats, find. cbn [fst snd]. by rewrite Hk.
Qed.

(** ** Upload *)






(** ** The generated id and the random draw *)

Lemma bits_of_zero_ldiff a b n :
  N.ldiff a b = 0%N → N.testbit a n = true → N.testbit b n = true.
Proof.
  intros H Ha. apply (f_equal (λ x, N.testbit x n)) in H.
  rewrite N.ldiff_spec, N.bits_0, Ha in H. by destruct (N.testbit b n).
Qed.

Lemma bits_of_zero_land a b n :
  N.land a b = 0%N → N.testbit a n = true → N.testbit b n = false.
Proof.
  intros H Ha. apply (f_equal (λ x, N.testbit x n)) in H.
  rewrite N.land_spec, N.bits_0, Ha in H. by destruct (N.testbit b n).
Qed.

Lemma uuid4_from_random_bits r : uuid4 r = N.lor (random_bits r) uuid4_flags.
Proof.
  unfold uuid4, random_bits, uuid4_mask, uuid4_flags.
  generalize (r mod 2 ^ 128)%N. intros x. apply N.bits_inj. intros n.
  rewrite !N.lor_spec, !N.ldiff_spec, !N.lor_spec, !N.ldiff_spec.
  pose proof (bits_of_zero_land (N.shiftl 0x8000 48) (N.shiftl 0xf000 64) n eq_refl) as Hv1.
  destruct (N.testbit x n), (N.testbit (N.shiftl 49152 48) n),
    (N.testbit (N.shiftl 32768 48) n), (N.testbit (N.shiftl 61440 64) n),
    (N.testbit (N.shiftl 4 76) n); simpl in *; try done; by specialize (Hv1 eq_refl).
Qed.

Lemma uuid4_random_bits r : N.ldiff (uuid4 r) uuid4_mask = random_bits r.
Proof.
  rewrite uuid4_from_random_bits. unfold random_bits, uuid4_mask, uuid4_flags.
  generalize (r mod 2 ^ 128)%N. intros x. apply N.bits_inj. intros n.
  rewrite !N.ldiff_spec, !N.lor_spec, !N.ldiff_spec, !N.lor_spec.
  pose proof (bits_of_zero_ldiff (N.shiftl 0x8000 48) (N.shiftl 0xc000 48) n eq_refl) as Hv1.
  pose proof (bits_of_zero_ldiff (N.shiftl 4 76) (N.shiftl 0xf000 64) n eq_refl) as Hv2.
  destruct (N.testbit x n), (N.testbit (N.shiftl 49152 48) n),
    (N.testbit (N.shiftl 32768 48) n), (N.testbit (N.shiftl 61440 64) n),
    (N.testbit (N.shiftl 4 76) n); simpl in *; try done;
    first [ by specialize (Hv1 eq_refl) | by specialize (Hv2 eq_refl) ].
Qed.

Lemma uuid4_eq_iff r1 r2 : uuid4 r1 = uuid4 r2 ↔ random_bits r1 = random_bits r2.
Proof.
  split; intros H.
  - by rewrite <- !uuid4_random_bits, H.
  - by rewrite !uuid4_from_random_bits, H.
Qed.

Lemma uuid4_high_bits r n : (128 ≤ n)%N → N.testbit (uuid4 r) n = false.
Proof.
  intros Hn. rewrite uuid4_from_random_bits. unfold random_bits.
  rewrite N.lor_spec, N.ldiff_spec, N.mod_pow2_bits_high by done. cbn [andb orb].
  apply N.bits_above_log2. change (N.log2 uuid4_flags) with 78%N. lia.
Qed.

Lemma land_15_bound a : (N.to_nat (N.land a 15) < 16)%nat.
Proof.
  change 15%N with (N.ones 4). rewrite N.land_ones.
  pose proof (N.mod_upper_bound a (2 ^ 4)). lia.
Qed.

Lemma hex_digit_inj a b :
  hex_digit (N.land a 15) = hex_digit (N.land b 15) → N.land a 15 = N.land b 15.
Proof.
  intros H. apply N2Nat.inj. unfold hex_digit in H.
  pose proof (land_15_bound a) as Ha. pose proof (land_15_bound b) as Hb.
  revert H Ha Hb. generalize (N.to_nat (N.land a 15)) (N.to_nat (N.land b 15)).
  intros x y H Hx Hy.
  do 16 (destruct x as [| x];
         [do 16 (destruct y as [| y]; [first [reflexivity | discriminate H] |]); lia |]).
  lia.
Qed.

Lemma nibble_testbit u n :
  N.testbit u n = N.testbit (nibble u (N.to_nat (n / 4))) (n mod 4).
Proof.
  unfold nibble. rewrite N.land_spec, N.shiftr_spec', N2Nat.id.
  change 15%N with (N.ones 4). rewrite N.ones_spec_low by (apply N.mod_lt; lia).
  rewrite andb_true_r. f_equal. rewrite N.add_comm. by apply N.div_mod.
Qed.

Lemma uuid_str_nibbles u1 u2 :
  uuid_str u1 = uuid_str u2 → ∀ i, (i < 32)%nat → nibble u1 i = nibble u2 i.
Proof.
  intros H. apply (f_equal list_ascii_of_string) in H.
  unfold uuid_str in H. rewrite !list_ascii_of_string_of_list_ascii in H.
  unfold hex32 in H.
  change (reverse (seq 0 32)) with
    [31; 30; 29; 28; 27; 26; 25; 24; 23; 22; 21; 20; 19; 18; 17; 16;
     15; 14; 13; 12; 11; 10; 9; 8; 7; 6; 5; 4; 3; 2; 1; 0]%nat in H.
  cbn [fmap list_fmap take drop app] in H.
  injection H as H31 H30 H29 H28 H27 H26 H25 H24 H23 H22 H21 H20 H19 H18 H17 H16
    H15 H14 H13 H12 H11 H10 H9 H8 H7 H6 H5 H4 H3 H2 H1 H0.
  intros i Hi. unfold nibble.
  do 32 (destruct i as [| i]; [by apply hex_digit_inj |]). lia.
Qed.

Lemma uuid_str_uuid4_inj r1 r2 :
  uuid_str (uuid4 r1) = uuid_str (uuid4 r2) → uuid4 r1 = uuid4 r2.
Proof.
  intros H. apply N.bits_inj. intros n.
  destruct (N.lt_ge_cases n 128) as [Hlt | Hge].
  - rewrite !(nibble_testbit _ n). f_equal. apply (uuid_str_nibbles _ _ H).
    assert (n / 4 < 32)%N by (apply N.Div0.div_lt_upper_bound; lia). lia.
  - by rewrite !uuid4_high_bits.
Qed.

Lemma create_draws_app l1 l2 : create_draws (l1 ++ l2) = create_draws l1 ++ create_draws l2.
Proof.
  induction l1 as [| [env req] l1 IH]; [done |].
  destruct req; simpl; try done. case_bool_decide; simpl; by rewrite IH.
Qed.

Lemma run_app l1 l2 st : run (l1 ++ l2) st = run l2 (run l1 st).
Proof.
  revert st. induction l1 as [| [env req] l1 IH]; intros st; [done |]. simpl. apply IH.
Qed.

Lemma generated_id_inj r1 r2 :
  generated_id r1 = generated_id r2 → random_bits r1 = random_bits r2.
Proof.
  intros H. apply uuid4_eq_iff, uuid_str_uuid4_inj. unfold generated_id in H. congruence.
Qed.

Lemma draw_fresh (ids : list value) past r :
  ids ⊆ generated_id <$> past →
  NoDup (random_bits <$> (past ++ [r])) →
  generated_id r ∉ ids.
Proof.
  intros Hsub Hnd Hin. apply Hsub, list_elem_of_fmap in Hin as (r' & Heq & Hr').
  rewrite fmap_app in Hnd. apply NoDup_app in Hnd as (_ & Hdisj & _).
  apply (Hdisj (random_bits r')); [by apply list_elem_of_fmap_2 |].
  rewrite <- (generated_id_inj _ _ Heq). simpl. by left.
Qed.

Lemma handle_ids_from_draws env req st past :
  NoDup (record_ids (documents (cheats_collection st))) →
  record_ids (documents (cheats_collection st)) ⊆ generated_id <$> past →
  NoDup (random_bits <$> (past ++ create_draws [(env, req)])) →
  NoDup (record_ids (documents (cheats_collection (handle env req st).2)))
  ∧ record_ids (documents (cheats_collection (handle env req st).2))
    ⊆ generated_id <$> (past ++ create_draws [(env, req)]).
Proof.
  intros Hnd Hsub Hdraws.
  destruct (handle_documents env req st)
    as [-> | [(c & cheat & -> & Hc & ->) | (c & cheat_id & l1 & d & l2 & -> & _ & Hl & _ & _ & ->)]].
  - split; [done |]. intros v Hv. rewrite fmap_app. apply elem_of_app. left. by apply Hsub.
  - simpl in *. rewrite bool_decide_eq_true_2 in * by done.
    rewrite record_ids_app. simpl. rewrite created_document_id. simpl.
    fold (generated_id (urandom env)). split.
    + apply NoDup_app. repeat split; [done | | apply NoDup_singleton].
      intros v Hv ->%list_elem_of_singleton. by apply (draw_fresh _ past (urandom env) Hsub).
    + rewrite fmap_app. intros v [Hv | Hv]%elem_of_app; apply elem_of_app; [left | right].
      * by apply Hsub.
      * apply list_elem_of_singleton in Hv as ->. simpl. by left.
  - simpl in *. rewrite app_nil_r in *. rewrite Hl in Hnd, Hsub.
    change (d :: l2) with ([d] ++ l2) in Hnd, Hsub.
    rewrite !record_ids_app in Hnd, Hsub. rewrite record_ids_app. split.
    + eapply sublist_NoDup; [exact Hnd |].
      apply sublist_app; [done |]. by apply sublist_inserts_l.
    + intros v Hv. apply Hsub. apply elem_of_app in Hv as [Hv | Hv]; apply elem_of_app;
        [by left | right]. apply elem_of_app. by right.
Qed.

Lemma run_ids_from_draws reqs st past :
  NoDup (record_ids (documents (cheats_collection st))) →
  record_ids (documents (cheats_collection st)) ⊆ generated_id <$> past →
  NoDup (random_bits <$> (past ++ create_draws reqs)) →
  NoDup (record_ids (documents (cheats_collection (run reqs st))))
  ∧ record_ids (documents (cheats_collection (run reqs st)))
    ⊆ generated_id <$> (past ++ create_draws reqs).
Proof.
  revert st past. induction reqs as [| [env req] reqs IH]; intros st past Hnd Hsub Hdraws.
  - simpl in *. by rewrite app_nil_r in *.
  - change ((env, req) :: reqs) with ([(env, req)] ++ reqs) in *.
    rewrite create_draws_app, app_assoc in *. rewrite run_app.
    destruct (handle_ids_from_draws env req st past Hnd Hsub) as [Hnd' Hsub'].
    { rewrite fmap_app in Hdraws. by apply NoDup_app in Hdraws as (? & _ & _). }
    by apply IH.
Qed.

(** C8: when the draws of the authorized creates of a run differ
    pairwise in the random bits [uuid4] keeps, the ids of the store are
    unique after the run (in whatever order the requests were served), and
    every authorized create of the run stores an id that no record of the
    store carried when it ran. *)
Theorem ids_unique_under_generation_scheme (reqs : list (Env * Request)) :
  NoDup (random_bits <$> create_draws reqs) →
  NoDup (record_ids (documents (cheats_collection (run reqs empty_state))))
  ∧ ∀ pre env c cheat post,
      reqs = (pre ++ (env, POST_cheats c cheat) :: post) →
      credentials c = ADMIN_CODE →
      (generated_id (urandom env)
       ∉ record_ids (documents (cheats_collection (run pre empty_state))))
      ∧ record_ids (documents (cheats_collection
                                 (run (pre ++ [(env, POST_cheats c cheat)]) empty_state)))
        = record_ids (documents (cheats_collection (run pre empty_state)))
          ++ [generated_id (urandom env)].
Proof.
  intros Hdraws. split.
  - apply (run_ids_from_draws reqs empty_state []); [constructor | by intros v Hv%elem_of_nil | done].
  - intros pre env c cheat post -> Hc.
    change ((env, POST_cheats c cheat) :: post)
      with ([(env, POST_cheats c cheat)] ++ post) in Hdraws.
    rewrite !create_draws_app, app_assoc, fmap_app in Hdraws.
    apply NoDup_app in Hdraws as (Hdraws & _ & _).
    simpl in Hdraws. rewrite bool_decide_eq_true_2 in Hdraws by done.
    destruct (run_ids_from_draws pre empty_state []) as [_ Hsub];
      [constructor | by intros v Hv%elem_of_nil | |].
    { rewrite fmap_app in Hdraws. by apply NoDup_app in Hdraws as (? & _ & _). }
    split.
    + by apply (draw_fresh _ (create_draws pre) (urandom env)).
    + rewrite run_app. simpl. rewrite (create_cheat_authorized _ _ _ _ Hc). simpl.
      rewrite record_ids_app. simpl. by rewrite created_document_id.
Qed.

(** C2, as the code has it: an authorized create answers with a record
    that carries the submitted fields, the creation time and the id
    generated for the request; the document it appends to the collection
    holds the same seven values; the id differs from the id of any draw
    with other random bits, and from every id of a store that the API
    populated with other draws; and where listing worked before the create
    (as on every store the API populated), listing afterwards returns the
    earlier result followed by the new record. *)
Theorem create_then_list (env : Env) (cheat : CheatCreate.t)
    (c : HTTPAuthorizationCredentials) (st : State) :
  credentials c = ADMIN_CODE →
  ∃ r d st',
    handle env (POST_cheats c cheat) st = (Return (Cheat r), st')
    ∧ CheatResponse.id r = uuid_str (uuid4 (urandom env))
    ∧ CheatResponse.name r = CheatCreate.name cheat
    ∧ CheatResponse.description r = CheatCreate.description cheat
    ∧ CheatResponse.link r = CheatCreate.link cheat
    ∧ CheatResponse.youtube_url r = CheatCreate.youtube_url cheat
    ∧ CheatResponse.thumbnail_url r = CheatCreate.thumbnail_url cheat
    ∧ CheatResponse.created_at r = now_isoformat env
    ∧ documents (cheats_collection st') = documents (cheats_collection st) ++ [d]
    ∧ upload_dir st' = upload_dir st
    ∧ d !! "id" = Some (VStr (CheatResponse.id r))
    ∧ d !! "name" = Some (VStr (CheatResponse.name r))
    ∧ d !! "description" = Some (VStr (CheatResponse.description r))
    ∧ d !! "link" = Some (VStr (CheatResponse.link r))
    ∧ d !! "youtube_url" = Some (of_optional (CheatResponse.youtube_url r))
    ∧ d !! "thumbnail_url" = Some (of_optional (CheatResponse.thumbnail_url r))
    ∧ d !! "created_at" = Some (VStr (CheatResponse.created_at r))
    ∧ (∀ other, random_bits other ≠ random_bits (urandom env) →
         uuid_str (uuid4 other) ≠ CheatResponse.id r)
    ∧ (∀ reqs, st = run reqs empty_state →
         NoDup (random_bits <$> (create_draws reqs ++ [urandom env])) →
         VStr (CheatResponse.id r) ∉ record_ids (documents (cheats_collection st)))
    ∧ (∀ env' l0, (handle env' GET_cheats st).1 = Return (Cheats l0) →
         handle env' GET_cheats st' = (Return (Cheats (l0 ++ [r])), st'))
    ∧ (∀ env' reqs, st = run reqs empty_state →
         ∃ l0, (handle env' GET_cheats st).1 = Return (Cheats l0)
               ∧ handle env' GET_cheats st' = (Return (Cheats (l0 ++ [r])), st')).
Proof.
  intros Hc.
  exists (created_response env cheat),
    (created_document env cheat (next_object_id (cheats_collection st))),
    {| cheats_collection :=
         {| documents :=
              documents (cheats_collection st)
              ++ [created_document env cheat (next_object_id (cheats_collection st))];
            next_object_id := N.succ (next_object_id (cheats_collection st)) |};
       upload_dir := upload_dir st |}.
  assert (∀ l0, mapM cheat_response (documents (cheats_collection st)) = Return l0 →
            mapM cheat_response
              (documents (cheats_collection st)
               ++ [created_document env cheat (next_object_id (cheats_collection st))])
            = Return (l0 ++ [created_response env cheat])) as Hsnoc.
  { intros l0 Hl0. apply (mapM_outcome_app _ _ _ _ _ Hl0).
    simpl. by rewrite created_document_response. }
  split.
  { cbn [handle respond]. by rewrite (create_cheat_authorized _ _ _ _ Hc). }
  do 9 (split; [reflexivity |]).
  destruct cheat as [n de li y t].
  do 7 (split; [reflexivity |]).
  cbn [CheatResponse.id created_response]. split; [| split; [| split]].
  - intros other Hother Heq. apply Hother. by apply uuid4_eq_iff, uuid_str_uuid4_inj.
  - intros reqs -> Hdraws.
    destruct (run_ids_from_draws reqs empty_state []) as [_ Hsub];
      [constructor | by intros v Hv%elem_of_nil | |].
    { rewrite fmap_app in Hdraws. by apply NoDup_app in Hdraws as (? & _ & _). }
    by apply (draw_fresh _ (create_draws reqs) (urandom env)).
  - intros env' l0 Hlist.
    unfold handle, respond, get_cheats, find in *. cbn [fst snd] in *.
    cbn [cheats_collection documents].
    destruct (mapM cheat_response (documents (cheats_collection st))) as [k | |] eqn:Hk;
      try discriminate Hlist.
    injection Hlist as <-. by rewrite (Hsnoc k eq_refl).
  - intros env' reqs ->.
    destruct (created_documents_list
                (documents (cheats_collection (run reqs empty_state)))) as [k Hk].
    { apply run_created. constructor. }
    exists k. unfold handle, respond, get_cheats, find. cbn [fst snd].
    cbn [cheats_collection documents]. by rewrite Hk, (Hsnoc k Hk).
Qed.

(** ** Evaluations and counterexamples *)

Example uuid_str_zero : uuid_str (uuid4 0) = "00000000-0000-4000-8000-000000000000".
Proof. vm_compute. reflexivity. Qed.

Example uuid_str_ones :
  uuid_str (uuid4 (2 ^ 128 - 1)) = "ffffffff-ffff-4fff-bfff-ffffffffffff".
Proof. vm_compute. reflexivity. Qed.

Example split_dots :
  split "." "a.b.c" = ["a"; "b"; "c"] ∧ split "." "" = [""] ∧ split "." "a." = ["a"; ""].
Proof. vm_compute. auto. Qed.


(** The claim C2 fails on a store that holds a document without an id:
    the create succeeds, and the listing that follows raises instead of
    returning the new record. *)
Lemma list_fails_after_create :
  handle noon (POST_cheats admin wallhack) legacy_store
  = (Return (Cheat (created_response noon wallhack)),
     {| cheats_collection :=
          {| documents :=
               [created_document morning aimbot 0; orphan; created_document noon wallhack 2];
             next_object_id := 3 |};
        upload_dir := ∅ |})
  ∧ (handle evening GET_cheats
       (handle noon (POST_cheats admin wallhack) legacy_store).2).1
    = Raise (KeyError "id").
Proof. split; vm_compute; reflexivity. Qed.

(** ** Instances of the hypotheses *)

Lemma create_then_list_witness :
  credentials admin = ADMIN_CODE
  ∧ ∃ r st',
      handle noon (POST_cheats admin aimbot) (run two_creates empty_state)
      = (Return (Cheat r), st')
      ∧ CheatResponse.name r = "Aimbot"
      ∧ uuid_str (uuid4 (urandom morning)) ≠ CheatResponse.id r
      ∧ (VStr (CheatResponse.id r)
         ∉ record_ids (documents (cheats_collection (run two_creates empty_state))))
      ∧ handle evening GET_cheats st'
        = (Return (Cheats ([created_response morning aimbot;
                            created_response evening wallhack] ++ [r])), st').
Proof.
  split; [reflexivity |].
  destruct (create_then_list noon aimbot admin (run two_creates empty_state) eq_refl)
    as (r & d & st' & Hcreate & _ & Hname & _ & _ & _ & _ & _ & _ & _
        & _ & _ & _ & _ & _ & _ & _ & Hother & Hfresh & Hlist & _).
  exists r, st'. split; [exact Hcreate |]. split; [exact Hname |].
  split; [| split].
  - apply Hother. vm_compute. discriminate.
  - apply (Hfresh two_creates eq_refl). compute_done.
  - apply Hlist. reflexivity.
Defined.

Lemma ids_unique_under_generation_scheme_witness :
  NoDup (random_bits <$> create_draws two_creates)
  ∧ NoDup (record_ids (documents (cheats_collection (run two_creates empty_state))))
  ∧ generated_id (urandom evening)
    ∉ record_ids
        (documents (cheats_collection (run [(morning, POST_cheats admin aimbot)] empty_state))).
Proof.
  assert (NoDup (random_bits <$> create_draws two_creates)) as Hdraws by compute_done.
  destruct (ids_unique_under_generation_scheme two_creates Hdraws) as [Hunique Hfresh].
  split; [exact Hdraws |]. split; [exact Hunique |].
  destruct (Hfresh [(morning, POST_cheats admin aimbot)] evening admin wallhack []
              eq_refl eq_refl) as [Hnew _].
  exact Hnew.
Defined.

Lemma delete_removes_exactly_target_witness :
  credentials admin = ADMIN_CODE
  ∧ Exists (has_id "01234567-89ab-4def-8123-456789abcdef")
      (documents (cheats_collection (run two_creates empty_state)))
  ∧ (handle evening (DELETE_cheats admin "01234567-89ab-4def-8123-456789abcdef")
       (run two_creates empty_state)).1
    = Return (Message "Cheat deleted successfully")
  ∧ Forall (λ d, ¬ has_id "no-such-id" d)
      (documents (cheats_collection (run two_creates empty_state)))
  ∧ handle evening (DELETE_cheats admin "no-such-id") (run two_creates empty_state)
    = (HTTPException 404 "Cheat not found", run two_creates empty_state).
Proof.
  assert (Exists (has_id "01234567-89ab-4def-8123-456789abcdef")
            (documents (cheats_collection (run two_creates empty_state)))) as Hex
    by compute_done.
  assert (Forall (λ d, ¬ has_id "no-such-id" d)
            (documents (cheats_collection (run two_creates empty_state)))) as Habs
    by compute_done.
  split; [reflexivity |]. split; [exact Hex |].
  destruct (delete_removes_exactly_target evening admin
              "01234567-89ab-4def-8123-456789abcdef" (run two_creates empty_state) eq_refl)
    as [Hpresent _].
  destruct (delete_removes_exactly_target evening admin
              "no-such-id" (run two_creates empty_state) eq_refl)
    as [_ Habsent].
  destruct (Hpresent Hex) as (l1 & d & l2 & _ & _ & Hdel & _).
  split; [by rewrite Hdel |]. split; [exact Habs | exact (Habsent Habs)].
Defined.

Lemma unauthorized_write_rejected_witness :
  request_credentials (POST_cheats intruder aimbot) = Some intruder
  ∧ credentials intruder ≠ ADMIN_CODE
  ∧ handle morning (POST_cheats intruder aimbot) (run two_creates empty_state)
    = (HTTPException 401 "Invalid authentication code", run two_creates empty_state).
Proof.
  assert (credentials intruder ≠ ADMIN_CODE) as Hne by discriminate.
  split; [reflexivity |]. split; [exact Hne |].
  exact (unauthorized_write_rejected morning (POST_cheats intruder aimbot) intruder
           (run two_creates empty_state) eq_refl Hne).
Defined.

Lemma upload_non_image_rejected_witness :
  credentials admin = ADMIN_CODE
  ∧ ¬ is_image_type (content_type notes_txt)
  ∧ handle morning (POST_upload admin notes_txt) empty_state
    = (HTTPException 400 "File must be an image", empty_state).
Proof.
  assert (¬ is_image_type (content_type notes_txt)) as Hnot
    by (intros [subtype H]; discriminate H).
  split; [reflexivity |]. split; [exact Hnot |].
  exact (upload_non_image_rejected morning notes_txt admin empty_state eq_refl Hnot).
Defined.



(** * Further properties *)

(** ** Listing *)

Lemma mapM_outcome_Return {A B : Type} (f : A → outcome B) l k :
  mapM f l = Return k ↔ Forall2 (λ x y, f x = Return y) l k.
Proof.
  revert k. induction l as [| a l IH]; intros k; simpl.
  - split.
    + intros [= <-]. constructor.
    + intros ->%Forall2_nil_inv_l. done.
  - destruct (f a) as [b | |] eqn:Hfa; simpl.
    + destruct (mapM f l) as [k' | |] eqn:Hl; simpl.
      * split.
        -- intros [= <-]. constructor; [done | by apply IH].
        -- intros (y & k'' & Hy & Hk & ->)%Forall2_cons_inv_l.
           apply IH in Hk. rewrite Hfa in Hy.
           injection Hy as <-. injection Hk as <-. reflexivity.
      * split; [done |].
        intros (y & k'' & _ & Hk & _)%Forall2_cons_inv_l. by apply IH in Hk.
      * split; [done |].
        intros (y & k'' & _ & Hk & _)%Forall2_cons_inv_l. by apply IH in Hk.
    + split; [done | intros (y & k'' & Hy & _)%Forall2_cons_inv_l; congruence].
    + split; [done | intros (y & k'' & Hy & _)%Forall2_cons_inv_l; congruence].
Qed.

Lemma mapM_outcome_raise {A B : Type} (f : A → outcome B) l1 a l2 k1 e :
  mapM f l1 = Return k1 → f a = Raise e → mapM f (l1 ++ a :: l2) = Raise e.
Proof.
  revert k1. induction l1 as [| x l1 IH]; intros k1 H1 Ha; simpl in *.
  - by rewrite Ha.
  - destruct (f x) as [b | |]; simpl in *; try discriminate.
    destruct (mapM f l1) as [k | |]; simpl in *; try discriminate.
    by rewrite (IH k eq_refl Ha).
Qed.

(** X1: GET /api/cheats returns a list exactly when every stored document
    converts, and the list then holds one record per document, in the
    order of the store; the request never changes the state. *)
Theorem list_returns_every_record (env : Env) (st : State) (l : list CheatResponse.t) :
  ((handle env GET_cheats st).1 = Return (Cheats l)
   ↔ Forall2 (λ d r, cheat_response d = Return r) (documents (cheats_collection st)) l)
  ∧ (handle env GET_cheats st).2 = st.
Proof.
  split; [| reflexivity].
  unfold handle, respond, get_cheats, find. cbn [fst].
  rewrite <- mapM_outcome_Return.
  destruct (mapM cheat_response (documents (cheats_collection st))) as [k | |];
    cbv [fmap outcome_fmap]; split; congruence.
Qed.

(** The five subscripts, then the validation of the five values. *)
Ltac case_subscripts d :=
  destruct (d !! "id") as [[? | |] |] eqn:?; simpl; try discriminate;
  destruct (d !! "name") as [[? | |] |] eqn:?; simpl; try discriminate;
  destruct (d !! "description") as [[? | |] |] eqn:?; simpl; try discriminate;
  destruct (d !! "link") as [[? | |] |] eqn:?; simpl; try discriminate;
  destruct (d !! "created_at") as [[? | |] |] eqn:?; simpl; try discriminate.

Lemma cheat_response_id d r :
  cheat_response d = Return r → d !! "id" = Some (VStr (CheatResponse.id r)).
Proof.
  unfold cheat_response, getitem, CheatResponse_init, as_str.
  case_subscripts d;
    destruct (as_optional_str (get d "youtube_url")); simpl; try discriminate;
    destruct (as_optional_str (get d "thumbnail_url")); simpl; try discriminate.
  by intros [= <-].
Qed.

(** X2: a stored document whose five required fields hold strings and
    whose optional fields are each absent, null or a string converts to
    the record of those values, an absent or null optional field giving
    null, whatever other keys the document has (the driver's [_id] among
    them). *)
Theorem cheat_response_fields (d : document) (r : CheatResponse.t) :
  d !! "id" = Some (VStr (CheatResponse.id r)) →
  d !! "name" = Some (VStr (CheatResponse.name r)) →
  d !! "description" = Some (VStr (CheatResponse.description r)) →
  d !! "link" = Some (VStr (CheatResponse.link r)) →
  d !! "created_at" = Some (VStr (CheatResponse.created_at r)) →
  get d "youtube_url" = of_optional (CheatResponse.youtube_url r) →
  get d "thumbnail_url" = of_optional (CheatResponse.thumbnail_url r) →
  cheat_response d = Return r.
Proof.
  unfold cheat_response, getitem, CheatResponse_init, as_str.
  intros -> -> -> -> -> -> ->. simpl.
  by destruct r as [i n de li [y |] [t |] cr].
Qed.

Lemma cheat_response_missing d k :
  first_missing d = Some k → cheat_response d = Raise (KeyError k).
Proof.
  unfold first_missing, subscripted_keys, cheat_response, getitem.
  rewrite !filter_cons, filter_nil.
  destruct (d !! "id") as [vi |]; [| by intros [= <-]].
  destruct (d !! "name") as [vn |]; [| by intros [= <-]].
  destruct (d !! "description") as [vd |]; [| by intros [= <-]].
  destruct (d !! "link") as [vl |]; [| by intros [= <-]].
  destruct (d !! "created_at") as [vc |]; [| by intros [= <-]].
  repeat case_decide; done.
Qed.

(** X3: when the documents before one all convert and that one lacks a
    subscripted key, GET /api/cheats raises the KeyError of the first key it
    lacks, in the order id, name, description, link, created_at: one such
    document makes the whole listing fail. *)
Theorem list_fails_on_missing_key (env : Env) (st : State)
    (l1 l2 : list document) (d : document) (k1 : list CheatResponse.t) (k : string) :
  documents (cheats_collection st) = l1 ++ d :: l2 →
  mapM cheat_response l1 = Return k1 →
  first_missing d = Some k →
  handle env GET_cheats st = (Raise (KeyError k), st).
Proof.
  intros Hdocs Hl1 Hk. unfold handle, respond, get_cheats, find. cbn [fst snd].
  rewrite Hdocs.
  by rewrite (mapM_outcome_raise _ _ _ _ _ _ Hl1 (cheat_response_missing _ _ Hk)).
Qed.

(** X4: a document that has the five subscripted keys but holds null or
    an ObjectId under one of them, or an ObjectId under an optional field,
    fails validation. *)
Theorem cheat_response_invalid (d : document) :
  first_missing d = None →
  Exists (λ k, d !! k = Some VNull ∨ ∃ oid, d !! k = Some (VObjectId oid)) subscripted_keys
  ∨ (∃ oid, d !! "youtube_url" = Some (VObjectId oid))
  ∨ (∃ oid, d !! "thumbnail_url" = Some (VObjectId oid)) →
  cheat_response d = Raise ValidationError.
Proof.
  unfold first_missing, subscripted_keys, cheat_response, getitem, get,
    CheatResponse_init, as_str.
  rewrite !filter_cons, filter_nil, !Exists_cons, Exists_nil.
  destruct (d !! "id") as [vi |]; [| by case_decide].
  destruct (d !! "name") as [vn |]; [| by repeat case_decide].
  destruct (d !! "description") as [vd |]; [| by repeat case_decide].
  destruct (d !! "link") as [vl |]; [| by repeat case_decide].
  destruct (d !! "created_at") as [vc |]; [| by repeat case_decide].
  intros _ Hbad.
  destruct vi, vn, vd, vl, vc; simpl; try reflexivity;
    destruct (d !! "youtube_url") as [[y | |] |]; simpl; try reflexivity;
    destruct (d !! "thumbnail_url") as [[t | |] |]; simpl; try reflexivity;
    exfalso;
    (destruct Hbad as [Hreq | [[o H] | [o H]]]; [| discriminate H | discriminate H]);
    repeat (destruct Hreq as [[H | [o H]] | Hreq]; [discriminate H | discriminate H |]);
    destruct Hreq.
Qed.

(** ** Delete composed with the other routes *)

Lemma converted_ids cheat_id (l : list document) (k : list CheatResponse.t) :
  Forall2 (λ d r, cheat_response d = Return r) l k →
  Forall (λ d, ¬ has_id cheat_id d) l →
  Forall (λ r, CheatResponse.id r ≠ cheat_id) k.
Proof.
  induction 1 as [| d r l k Hdr _ IH]; intros Hl; [constructor |].
  apply Forall_cons in Hl as [Hd Hl]. constructor; [| by apply IH].
  intros <-. apply Hd. by apply cheat_response_id.
Qed.

Lemma remove_first_app_absent cheat_id l1 l2 :
  Forall (λ d, ¬ has_id cheat_id d) l1 →
  remove_first cheat_id (l1 ++ l2)
  = ((remove_first cheat_id l2).1, l1 ++ (remove_first cheat_id l2).2).
Proof.
  induction 1 as [| d l1 Hd _ IH]; simpl; [by destruct (remove_first cheat_id l2) |].
  destruct (matches_id cheat_id d) eqn:Hm.
  - apply matches_id_true in Hm. contradiction.
  - by rewrite IH.
Qed.

Lemma fresh_id_absent cheat_id (l : list document) :
  VStr cheat_id ∉ record_ids l → Forall (λ d, ¬ has_id cheat_id d) l.
Proof.
  intros Hfresh. apply Forall_forall. intros d Hd Hid.
  apply Hfresh. by apply (has_id_record_ids cheat_id d).
Qed.

Lemma unique_id_elsewhere_absent cheat_id l1 d l2 :
  NoDup (record_ids (l1 ++ d :: l2)) → has_id cheat_id d →
  Forall (λ d', ¬ has_id cheat_id d') (l1 ++ l2).
Proof.
  intros Hnd Hd. change (d :: l2) with ([d] ++ l2) in Hnd.
  rewrite !record_ids_app in Hnd. simpl in Hnd. unfold has_id in Hd.
  rewrite Hd in Hnd. simpl in Hnd.
  apply NoDup_app in Hnd as (_ & Hl1 & Hnd). apply NoDup_cons in Hnd as [Hl2 _].
  apply Forall_app. split; apply Forall_forall; intros d' Hd' Hid.
  - apply (Hl1 (VStr cheat_id)); [by apply (has_id_record_ids cheat_id d') | by left].
  - apply Hl2. by apply (has_id_record_ids cheat_id d').
Qed.

(** X5: where listing returned [l0], an authorized delete of an id some
    record carries makes the next listing return [l0] without the first
    record of that id, the others in their order. *)
Theorem delete_then_list (env env' : Env) (c : HTTPAuthorizationCredentials)
    (cheat_id : string) (st : State) (l0 : list CheatResponse.t) :
  credentials c = ADMIN_CODE →
  (handle env' GET_cheats st).1 = Return (Cheats l0) →
  Exists (has_id cheat_id) (documents (cheats_collection st)) →
  ∃ k1 r k2,
    l0 = k1 ++ r :: k2
    ∧ CheatResponse.id r = cheat_id
    ∧ Forall (λ r', CheatResponse.id r' ≠ cheat_id) k1
    ∧ handle env' GET_cheats (handle env (DELETE_cheats c cheat_id) st).2
      = (Return (Cheats (k1 ++ k2)), (handle env (DELETE_cheats c cheat_id) st).2).
Proof.
  intros Hc Hlist Hex.
  destruct (delete_cheat_present _ _ _ Hc Hex) as (l1 & d & l2 & Hdocs & Hl1 & Hd & Hdel).
  unfold handle, respond, get_cheats, find in *. cbn [fst snd] in *.
  rewrite Hdel. cbn [fst snd cheats_collection documents].
  destruct (mapM cheat_response (documents (cheats_collection st))) as [k | |] eqn:Hk;
    try discriminate Hlist.
  injection Hlist as <-. rewrite Hdocs in Hk.
  apply mapM_outcome_Return, Forall2_app_inv_l in Hk as (k1 & k2' & Hk1 & Hk2 & ->).
  apply Forall2_cons_inv_l in Hk2 as (r & k2 & Hr & Hk2 & ->).
  exists k1, r, k2. repeat split.
  - apply cheat_response_id in Hr. unfold has_id in Hd. congruence.
  - by apply (converted_ids cheat_id l1).
  - apply mapM_outcome_Return in Hk1, Hk2.
    by rewrite (mapM_outcome_app _ _ _ _ _ Hk1 Hk2).
Qed.

(** X6: an authorized create whose generated id no stored record carries,
    followed by an authorized delete of that id, leaves the documents and
    the upload directory as they were before the create. *)
Theorem create_then_delete (env env' : Env) (c : HTTPAuthorizationCredentials)
    (cheat : CheatCreate.t) (st : State) :
  credentials c = ADMIN_CODE →
  VStr (uuid_str (uuid4 (urandom env))) ∉ record_ids (documents (cheats_collection st)) →
  handle env' (DELETE_cheats c (uuid_str (uuid4 (urandom env))))
    (handle env (POST_cheats c cheat) st).2
  = (Return (Message "Cheat deleted successfully"),
     {| cheats_collection :=
          {| documents := documents (cheats_collection st);
             next_object_id := N.succ (next_object_id (cheats_collection st)) |};
        upload_dir := upload_dir st |}).
Proof.
  intros Hc Hfresh. cbn [handle respond snd].
  rewrite (create_cheat_authorized _ _ _ _ Hc). cbn [snd].
  unfold delete_cheat, delete_one. rewrite (get_current_user_accepts _ Hc).
  cbn [cheats_collection documents next_object_id upload_dir].
  rewrite (remove_first_app_absent _ _ _ (fresh_id_absent _ _ Hfresh)).
  cbn [remove_first]. unfold matches_id.
  rewrite bool_decide_eq_true_2 by apply created_document_id.
  cbn [fst snd]. by rewrite app_nil_r.
Qed.

(** X7: with unique ids in the store, a second authorized delete of the
    same id answers 404 and changes nothing, whether or not the first one
    found a record. *)
Theorem delete_twice_not_found (env env' : Env) (c : HTTPAuthorizationCredentials)
    (cheat_id : string) (st : State) :
  credentials c = ADMIN_CODE →
  NoDup (record_ids (documents (cheats_collection st))) →
  handle env' (DELETE_cheats c cheat_id) (handle env (DELETE_cheats c cheat_id) st).2
  = (HTTPException 404 "Cheat not found", (handle env (DELETE_cheats c cheat_id) st).2).
Proof.
  intros Hc Hnd. cbn [handle respond snd].
  assert (Forall (λ d, ¬ has_id cheat_id d)
            (documents (cheats_collection (delete_cheat cheat_id c st).2))) as Habs.
  { destruct (absent_or_present cheat_id (documents (cheats_collection st))) as [Ha | He].
    - by rewrite (delete_cheat_absent _ _ _ Hc Ha).
    - destruct (delete_cheat_present _ _ _ Hc He) as (l1 & d & l2 & Hdocs & _ & Hd & ->).
      rewrite Hdocs in Hnd. by apply (unique_id_elsewhere_absent cheat_id l1 d l2). }
  by rewrite (delete_cheat_absent _ _ _ Hc Habs).
Qed.

(** ** What requests leave alone *)

Lemma upload_thumbnail_effect env f c st :
  (upload_thumbnail env f c st).2 = st
  ∨ ∃ leaf url,
      upload_thumbnail env f c st
      = (Return url,
         {| cheats_collection := cheats_collection st;
            upload_dir := <[leaf := file f]> (upload_dir st) |}).
Proof.
  unfold upload_thumbnail.
  destruct (get_current_user c); [| by left | by left].
  destruct (negb _); [by left |].
  destruct (write_file_outcome
              (uuid_str (uuid4 (urandom env)) +:+ "."
               +:+ default "" (last (split "." (filename f))))
              (file f) (upload_dir st)) as [[leaf ->] | [e ->]].
  - right. by eexists _, _.
  - left. by destruct st.
Qed.

(** X8: a request that is answered with an error, whichever it is, leaves
    the collection and the upload directory as they were. *)
Theorem failed_request_changes_nothing (env : Env) (req : Request) (st : State) :
  (∀ b, (handle env req st).1 ≠ Return b) →
  (handle env req st).2 = st.
Proof.
  intros Hfail.
  destruct req as [| code | | c cheat | c cheat_id | c f]; try reflexivity;
    cbn [handle respond fst snd] in *.
  - destruct (decide (credentials c = ADMIN_CODE)) as [Hc | Hc].
    + rewrite (create_cheat_authorized _ _ _ _ Hc) in Hfail. by destruct (Hfail _ eq_refl).
    + unfold create_cheat. by rewrite (get_current_user_rejects _ Hc).
  - destruct (decide (credentials c = ADMIN_CODE)) as [Hc | Hc].
    + destruct (absent_or_present cheat_id (documents (cheats_collection st))) as [Ha | He].
      * by rewrite (delete_cheat_absent _ _ _ Hc Ha).
      * destruct (delete_cheat_present _ _ _ Hc He) as (l1 & d & l2 & _ & _ & _ & Hdel).
        rewrite Hdel in Hfail. by destruct (Hfail _ eq_refl).
    + unfold delete_cheat. by rewrite (get_current_user_rejects _ Hc).
  - destruct (upload_thumbnail_effect env f c st) as [Hsame | (leaf & url & Hup)]; [done |].
    rewrite Hup in Hfail. by destruct (Hfail _ eq_refl).
Qed.

Lemma rejected_without_secret env req c st :
  request_credentials req = Some c → credentials c ≠ ADMIN_CODE →
  (handle env req st).2 = st.
Proof.
  intros Hreq Hc.
  destruct req; simplify_eq/=;
    unfold create_cheat, delete_cheat, upload_thumbnail;
    by rewrite (get_current_user_rejects _ Hc).
Qed.

Lemma handle_without_secret env req st :
  without_secret (env, req) → (handle env req st).2 = st.
Proof.
  unfold without_secret. cbn [snd]. intros Hno.
  destruct (request_credentials req) as [c |] eqn:Hreq.
  - exact (rejected_without_secret env req c st Hreq (Hno c eq_refl)).
  - by destruct req.
Qed.

(** X9: no sequence of requests that present no credential or a wrong one
    changes the collection or the upload directory. *)
Theorem run_without_secret (reqs : list (Env * Request)) (st : State) :
  Forall without_secret reqs → run reqs st = st.
Proof.
  induction 1 as [| [env req] reqs Hreq _ IH]; [reflexivity |].
  simpl. by rewrite (handle_without_secret _ _ _ Hreq).
Qed.

Lemma handle_upload_dir env req st :
  upload_dir (handle env req st).2 = upload_dir st
  ∨ ∃ c f leaf, req = POST_upload c f
      ∧ upload_dir (handle env req st).2 = <[leaf := file f]> (upload_dir st).
Proof.
  destruct req as [| code | | c cheat | c cheat_id | c f]; cbn [handle respond snd];
    try (by left).
  - left. unfold create_cheat. destruct (get_current_user c); [| done | done].
    by destruct (insert_one _ _).
  - left. unfold delete_cheat. destruct (get_current_user c); [| done | done].
    destruct (delete_one _ _) as [n coll]. by destruct (n =? 0)%N.
  - destruct (upload_thumbnail_effect env f c st) as [-> | (leaf & url & ->)]; [by left |].
    right. by exists c, f, leaf.
Qed.

(** X10: only an upload touches the upload directory, and nothing ever
    removes a file from it: a delete of a record keeps the file its
    thumbnail names, and after any sequence of requests every file that
    was stored is still stored. *)
Theorem uploads_never_removed :
  (∀ env req st, (∀ c f, req ≠ POST_upload c f) →
     upload_dir (handle env req st).2 = upload_dir st)
  ∧ (∀ reqs st name,
       is_Some (upload_dir st !! name) → is_Some (upload_dir (run reqs st) !! name)).
Proof.
  split.
  - intros env req st Hnot.
    destruct (handle_upload_dir env req st) as [H | (c & f & leaf & -> & _)]; [done |].
    by destruct (Hnot c f).
  - intros reqs. induction reqs as [| [env req] reqs IH]; intros st name Hname; [done |].
    simpl. apply IH.
    destruct (handle_upload_dir env req st) as [-> | (c & f & leaf & _ & ->)]; [done |].
    rewrite lookup_insert. by case_decide.
Qed.

(** ** The stored file name *)

Lemma split_last_shape sep s :
  ∃ init ext,
    split sep s = init ++ [ext] ∧ contains sep ext = false
    ∧ (init = [] → s = ext)
    ∧ (init ≠ [] → ∃ stem, s = stem +:+ String sep ext).
Proof.
  induction s as [| c s (init & ext & Hsplit & Hext & Hnil & Hcons)].
  - by exists [], "".
  - simpl. destruct (Ascii.eqb c sep) eqn:Hc.
    + apply Ascii.eqb_eq in Hc as ->. exists ("" :: init), ext.
      rewrite Hsplit. repeat split; [done | done |]. intros _.
      destruct init as [| w ws].
      * exists "". by rewrite (Hnil eq_refl).
      * destruct (Hcons ltac:(done)) as [stem ->]. by exists (String sep stem).
    + rewrite Hsplit. destruct init as [| w ws]; simpl.
      * exists [], (String c ext). simpl. rewrite Hc, Hext.
        repeat split; [| done]. intros _. by rewrite (Hnil eq_refl).
      * exists (String c w :: ws), ext. repeat split; [done | done |]. intros _.
        destruct (Hcons ltac:(done)) as [stem ->]. by exists (String c stem).
Qed.

(** X11: the subscript [-1] of [filename.split(".")] never fails; what it
    yields has no dot, and is the whole name when the name has no dot, the
    text after its last dot otherwise. *)
Theorem extension_is_text_after_last_dot (name : string) :
  ∃ ext,
    last (split "." name) = Some ext
    ∧ contains "." ext = false
    ∧ ((contains "." name = false ∧ name = ext)
       ∨ ∃ stem, name = stem +:+ "." +:+ ext).
Proof.
  destruct (split_last_shape "." name) as (init & ext & Hsplit & Hext & Hnil & Hcons).
  exists ext. rewrite Hsplit, last_snoc. repeat split; [done |].
  destruct init as [| w ws].
  - left. by rewrite (Hnil eq_refl).
  - right. apply Hcons. done.
Qed.

Lemma split_app_no_sep sep a b :
  contains sep a = false →
  split sep (a +:+ b)
  = match split sep b with
    | w :: ws => (a +:+ w) :: ws
    | [] => [a]
    end.
Proof.
  pose proof (split_nonempty sep b) as Hne.
  induction a as [| c a IH]; simpl.
  - intros _. rewrite append_nil. by destruct (split sep b).
  - intros [Hc Ha]%orb_false_iff. rewrite Hc, (IH Ha).
    destruct (split sep b); [done | by rewrite append_cons].
Qed.

Lemma split_segments sep s : Forall (λ w, contains sep w = false) (split sep s).
Proof.
  induction s as [| c s IH]; simpl; [by repeat constructor |].
  destruct (Ascii.eqb c sep) eqn:Hc; [by constructor |].
  destruct (split sep s) as [| w ws]; [by repeat constructor; simpl; rewrite Hc |].
  apply Forall_cons in IH as [Hw Hws]. constructor; [| done]. simpl. by rewrite Hc.
Qed.

Lemma append_assoc a b c : (a +:+ b) +:+ c = a +:+ (b +:+ c).
Proof.
  induction a as [| x a IH]; [done |]. by rewrite !append_cons, IH.
Qed.

(** X12: whatever name the client sends, an upload either leaves the
    state as it was or writes the content to exactly one entry of the
    upload directory, whose name begins with the generated identifier and
    a dot and has no path separator; the answer is the URL built from the
    identifier and the text after the last dot of the client's name. *)
Theorem stored_name_begins_with_uuid (env : Env) (f : UploadFile)
    (c : HTTPAuthorizationCredentials) (st : State) :
  (handle env (POST_upload c f) st).2 = st
  ∨ ∃ leaf,
      startswith leaf (uuid_str (uuid4 (urandom env)) +:+ ".") = true
      ∧ contains "/" leaf = false
      ∧ handle env (POST_upload c f) st
        = (Return (ThumbnailUrl
                     ("/api/uploads/" +:+ uuid_str (uuid4 (urandom env)) +:+ "."
                      +:+ default "" (last (split "." (filename f))))),
           {| cheats_collection := cheats_collection st;
              upload_dir := <[leaf := file f]> (upload_dir st) |}).
Proof.
  cbn [handle respond fst snd]. unfold upload_thumbnail.
  destruct (get_current_user c); [| by left | by left].
  destruct (negb _); [by left |].
  generalize (default "" (last (split "." (filename f)))). intros ext.
  assert (∀ w, uuid_str (uuid4 (urandom env)) +:+ String "." w ≠ ""
               ∧ uuid_str (uuid4 (urandom env)) +:+ String "." w ≠ "."
               ∧ uuid_str (uuid4 (urandom env)) +:+ String "." w ≠ "..") as Hproper.
  { intros w. destruct (uuid_str_long (uuid4 (urandom env))) as (x & y & z & r & ->).
    by rewrite !append_cons. }
  unfold write_file, path_parts.
  destruct (contains "000" _); [left; by destruct st |].
  rewrite split_app_no_sep by (by apply uuid_str_chars; compute_done).
  change ("." +:+ ext) with (String "." ext). cbn [split].
  change (Ascii.eqb "." "/") with false. cbv iota.
  pose proof (split_nonempty "/" ext) as Hne.
  pose proof (split_segments "/" ext) as Hseg.
  destruct (split "/" ext) as [| w ws]; [done |]. clear Hne.
  apply Forall_cons in Hseg as [Hw _].
  destruct (Hproper w) as (Hempty & Hdot & Hdots).
  rewrite filter_cons_True by done.
  destruct (filter _ ws) as [| ? ?]; [| left; by destruct st].
  rewrite bool_decide_eq_false_2 by done.
  destruct (Nat.ltb _ _); [left; by destruct st |].
  right. eexists. split; [| split; [| reflexivity]].
  - apply startswith_spec. exists w. by rewrite append_assoc.
  - rewrite contains_append, uuid_str_chars by compute_done. simpl. by rewrite Hw.
Qed.


(** ** The text of a generated identifier *)

Lemma uuid4_version r : N.land (N.shiftr (uuid4 r) 76) 15 = 4%N.
Proof.
  unfold uuid4. generalize (r mod 2 ^ 128)%N. intros x.
  apply N.bits_inj. intros n.
  rewrite N.land_spec, N.shiftr_spec', N.lor_spec, N.ldiff_spec.
  destruct (N.lt_ge_cases n 4) as [Hlt | Hge].
  - assert (n = 0 ∨ n = 1 ∨ n = 2 ∨ n = 3)%N as [-> | [-> | [-> | ->]]] by lia;
      cbn [N.add Pos.add Pos.succ];
      match goal with
      | |- context [N.testbit (N.shiftl 61440 64) ?p] =>
          change (N.testbit (N.shiftl 61440 64) p) with true
      end;
      by rewrite andb_false_r.
  - change 15%N with (N.ones 4). rewrite N.ones_spec_high, andb_false_r by done.
    symmetry. change 4%N with (2 ^ 2)%N. rewrite N.pow2_bits_eqb.
    apply N.eqb_neq. lia.
Qed.

(** X14: the text of every generated identifier has 36 characters, each a
    lowercase hexadecimal digit or a dash, with dashes at positions 8, 13,
    18 and 23 and the version digit 4 at position 14. *)
Theorem generated_id_format (r : N) :
  String.length (uuid_str (uuid4 r)) = 36
  ∧ (∀ c, contains c (uuid_str (uuid4 r)) = true → c ∈ hexdigits ∨ c = "-"%char)
  ∧ String.get 8 (uuid_str (uuid4 r)) = Some "-"%char
  ∧ String.get 13 (uuid_str (uuid4 r)) = Some "-"%char
  ∧ String.get 18 (uuid_str (uuid4 r)) = Some "-"%char
  ∧ String.get 23 (uuid_str (uuid4 r)) = Some "-"%char
  ∧ String.get 14 (uuid_str (uuid4 r)) = Some "4"%char.
Proof.
  generalize (uuid4_version r). generalize (uuid4 r). intros u Hversion.
  split; [reflexivity |]. split.
  - intros c Hc. destruct (decide (c ∈ hexdigits)) as [Hin | Hout]; [by left | right].
    destruct (decide (c = "-"%char)) as [-> | Hne]; [done |].
    by rewrite (uuid_str_chars u c Hout Hne) in Hc.
  - do 4 (split; [reflexivity |]).
    change (String.get 14 (uuid_str u))
      with (Some (hex_digit (N.land (N.shiftr u 76) 15))).
    by rewrite Hversion.
Qed.

(** ** Instances of the hypotheses of the further properties *)

Lemma list_fails_on_missing_key_witness :
  documents (cheats_collection legacy_store) = [created_document morning aimbot 0] ++ orphan :: []
  ∧ mapM cheat_response [created_document morning aimbot 0]
    = Return [created_response morning aimbot]
  ∧ first_missing orphan = Some "id"
  ∧ handle evening GET_cheats legacy_store = (Raise (KeyError "id"), legacy_store).
Proof.
  assert (mapM cheat_response [created_document morning aimbot 0]
          = Return [created_response morning aimbot]) as Hfirst by reflexivity.
  assert (first_missing orphan = Some "id") as Hmiss by reflexivity.
  split; [reflexivity |]. split; [exact Hfirst |]. split; [exact Hmiss |].
  exact (list_fails_on_missing_key evening legacy_store [created_document morning aimbot 0]
           [] orphan [created_response morning aimbot] "id" eq_refl Hfirst Hmiss).
Defined.

Lemma cheat_response_invalid_witness :
  first_missing nameless = None
  ∧ nameless !! "name" = Some VNull
  ∧ cheat_response nameless = Raise ValidationError.
Proof.
  assert (first_missing nameless = None) as Hall by reflexivity.
  assert (nameless !! "name" = Some VNull) as Hname by reflexivity.
  split; [exact Hall |]. split; [exact Hname |].
  apply (cheat_response_invalid nameless Hall).
  left. apply Exists_cons. right. apply Exists_cons. left. left. exact Hname.
Defined.

Lemma cheat_response_fields_witness :
  sparse !! "youtube_url" = None
  ∧ sparse !! "legacy_flag" = Some VNull
  ∧ cheat_response sparse
    = Return {| CheatResponse.id := "7";
                CheatResponse.name := "Speedhack";
                CheatResponse.description := "Runs fast";
                CheatResponse.link := "https://example.org/speedhack";
                CheatResponse.youtube_url := None;
                CheatResponse.thumbnail_url := Some "/api/uploads/s.png";
                CheatResponse.created_at := "2023-11-30T08:00:00" |}.
Proof.
  split; [reflexivity |]. split; [reflexivity |].
  exact (cheat_response_fields sparse
           {| CheatResponse.id := "7";
              CheatResponse.name := "Speedhack";
              CheatResponse.description := "Runs fast";
              CheatResponse.link := "https://example.org/speedhack";
              CheatResponse.youtube_url := None;
              CheatResponse.thumbnail_url := Some "/api/uploads/s.png";
              CheatResponse.created_at := "2023-11-30T08:00:00" |}
           eq_refl eq_refl eq_refl eq_refl eq_refl eq_refl eq_refl).
Defined.

Lemma delete_then_list_witness :
  credentials admin = ADMIN_CODE
  ∧ (handle evening GET_cheats (run two_creates empty_state)).1
    = Return (Cheats [created_response morning aimbot; created_response evening wallhack])
  ∧ Exists (has_id "01234567-89ab-4def-8123-456789abcdef")
      (documents (cheats_collection (run two_creates empty_state)))
  ∧ ∃ k1 r k2,
      [created_response morning aimbot; created_response evening wallhack]
      = (k1 ++ r :: k2)
      ∧ CheatResponse.id r = "01234567-89ab-4def-8123-456789abcdef"
      ∧ (handle evening GET_cheats
           (handle morning (DELETE_cheats admin "01234567-89ab-4def-8123-456789abcdef")
              (run two_creates empty_state)).2).1
        = Return (Cheats (k1 ++ k2)).
Proof.
  assert ((handle evening GET_cheats (run two_creates empty_state)).1
          = Return (Cheats [created_response morning aimbot;
                            created_response evening wallhack])) as Hlist
    by reflexivity.
  assert (Exists (has_id "01234567-89ab-4def-8123-456789abcdef")
            (documents (cheats_collection (run two_creates empty_state)))) as Hex
    by compute_done.
  split; [reflexivity |]. split; [exact Hlist |]. split; [exact Hex |].
  destruct (delete_then_list morning evening admin "01234567-89ab-4def-8123-456789abcdef"
              (run two_creates empty_state) _ eq_refl Hlist Hex)
    as (k1 & r & k2 & Hl0 & Hid & _ & Hafter).
  exists k1, r, k2. split; [exact Hl0 |]. split; [exact Hid |]. by rewrite Hafter.
Defined.

Lemma create_then_delete_witness :
  credentials admin = ADMIN_CODE
  ∧ (VStr (uuid_str (uuid4 (urandom morning)))
     ∉ record_ids (documents (cheats_collection empty_state)))
  ∧ documents
      (cheats_collection
         (handle evening (DELETE_cheats admin (uuid_str (uuid4 (urandom morning))))
            (handle morning (POST_cheats admin aimbot) empty_state).2).2)
    = documents (cheats_collection empty_state).
Proof.
  assert (VStr (uuid_str (uuid4 (urandom morning)))
          ∉ record_ids (documents (cheats_collection empty_state))) as Hfresh
    by apply not_elem_of_nil.
  split; [reflexivity |]. split; [exact Hfresh |].
  by rewrite (create_then_delete morning evening admin aimbot empty_state eq_refl Hfresh).
Defined.

Lemma delete_twice_not_found_witness :
  credentials admin = ADMIN_CODE
  ∧ NoDup (record_ids (documents (cheats_collection (run two_creates empty_state))))
  ∧ (handle evening (DELETE_cheats admin "01234567-89ab-4def-8123-456789abcdef")
       (handle morning (DELETE_cheats admin "01234567-89ab-4def-8123-456789abcdef")
          (run two_creates empty_state)).2).1
    = HTTPException 404 "Cheat not found".
Proof.
  assert (NoDup (record_ids (documents (cheats_collection (run two_creates empty_state)))))
    as Hnd by compute_done.
  split; [reflexivity |]. split; [exact Hnd |].
  by rewrite (delete_twice_not_found morning evening admin
                "01234567-89ab-4def-8123-456789abcdef" (run two_creates empty_state)
                eq_refl Hnd).
Defined.

Lemma failed_request_changes_nothing_witness :
  (∀ b, (handle morning (POST_upload admin nested) (run two_creates empty_state)).1
        ≠ Return b)
  ∧ (handle morning (POST_upload admin nested) (run two_creates empty_state)).2
    = run two_creates empty_state.
Proof.
  assert (∀ b, (handle morning (POST_upload admin nested) (run two_creates empty_state)).1
               ≠ Return b) as Hfail
    by (intros b; vm_compute; discriminate).
  split; [exact Hfail |].
  exact (failed_request_changes_nothing morning (POST_upload admin nested)
           (run two_creates empty_state) Hfail).
Defined.

Lemma run_without_secret_witness :
  Forall without_secret outsider_requests
  ∧ run outsider_requests (run two_creates empty_state) = run two_creates empty_state.
Proof.
  assert (Forall without_secret outsider_requests) as Hout.
  { repeat constructor; intros c [= <-]; discriminate. }
  split; [exact Hout |].
  exact (run_without_secret outsider_requests (run two_creates empty_state) Hout).
Defined.

